(** * Reddit scraper with Q&A conversion: a model of [app.py]

    The program is sequential glue around three libraries: PRAW (the
    platform client), the generative-model client and pandas.  The
    embedding keeps the program's own control flow (the [try]/[except]
    blocks, the truthiness tests, the in-place [extend]) and takes the
    behaviour of the outside world as an interface, [Externals], so that
    every statement below holds for every behaviour of that world. *)

From Stdlib Require Import List String Ascii ZArith Lia Bool Arith.
From Stdlib Require Import Sorted Permutation DecimalString SpecFloat.
Import ListNotations.

Local Open Scope string_scope.
Local Open Scope list_scope.

Set Warnings "-register-all".

Infix "+++" := String.append (right associativity, at level 60).

(** ** Python values *)

(** The line feed written [\n] in the source. *)
Definition nl : string := String "010"%char EmptyString.

(** [str(n)] for a non-negative integer. *)
Definition str_of_nat (n : nat) : string :=
  NilEmpty.string_of_uint (Nat.to_uint n).

(** The values [json.loads] can return.  A [dict] keeps its insertion
    order, so it is an association list; a [float] is an IEEE-754
    double; a [str] is held as its UTF-8 encoding, one or more bytes per
    character. *)
Inductive pyval : Type :=
| PNone
| PBool (b : bool)
| PInt (n : Z)
| PFloat (f : spec_float)
| PStr (s : string)
| PList (items : list pyval)
| PDict (entries : list (string * pyval)).

(** Exceptions deriving from [Exception]; [str(e)] is the carried
    message.  Interpreter-level interrupts ([KeyboardInterrupt],
    [SystemExit]) are not faults of the pipeline and are left out. *)
Inductive exception : Type :=
| PRAWException (msg : string)
| ResponseException (msg : string)
| TypeError (msg : string)
| OSError (msg : string)
| OtherException (cls msg : string).

Definition str_of_exception (e : exception) : string :=
  match e with
  | PRAWException msg | ResponseException msg | TypeError msg
  | OSError msg | OtherException _ msg => msg
  end.

(** Outcome of a call: a value, or a raised exception. *)
Inductive Res (A : Type) : Type :=
| Ok (a : A)
| Raise (e : exception).
Arguments Ok {A} a.
Arguments Raise {A} e.

(** The outcomes of [json.loads]: the decoded value; [JSONDecodeError];
    or another exception, which [json.loads] also raises
    ([RecursionError] on very deep nesting, [ValueError] on an integer
    beyond the digit limit of [int]). *)
Inductive loads_result : Type :=
| Loaded (v : pyval)
| JSONDecodeError
| LoadsRaised (e : exception).

(** [bool(v)], the test behind [if v:]. *)
Definition truthy (v : pyval) : bool :=
  match v with
  | PNone => false
  | PBool b => b
  | PInt n => negb (n =? 0)%Z
  | PFloat (S754_zero _) => false
  | PFloat _ => true
  | PStr s => negb (String.eqb s "")
  | PList items => negb (Nat.eqb (List.length items) 0)
  | PDict entries => negb (Nat.eqb (List.length entries) 0)
  end.

Definition type_name (v : pyval) : string :=
  match v with
  | PNone => "NoneType"
  | PBool _ => "bool"
  | PInt _ => "int"
  | PFloat _ => "float"
  | PStr _ => "str"
  | PList _ => "list"
  | PDict _ => "dict"
  end.

(** The characters of a [str].  In UTF-8 a character is a lead byte
    followed by its continuation bytes, the bytes from 128 to 191;
    [split_chars] returns the continuation bytes a text starts with and
    the characters after them. *)
Definition is_continuation (c : ascii) : bool :=
  (128 <=? nat_of_ascii c)%nat && (nat_of_ascii c <? 192)%nat.

Fixpoint split_chars (s : string) : string * list string :=
  match s with
  | EmptyString => (EmptyString, [])
  | String c rest =>
      let (tail, chars) := split_chars rest in
      if is_continuation c then (String c tail, chars)
      else (EmptyString, String c tail :: chars)
  end.

Definition code_points (s : string) : list string :=
  let (stray, chars) := split_chars s in
  match stray with
  | EmptyString => chars
  | _ => stray :: chars
  end.

(** Iterating a value ([for item in v], [list.extend(v)]): a list
    yields its items, a dict its keys, a string its characters, each a
    string of one character; any other value raises [TypeError]. *)
Definition iter (v : pyval) : Res (list pyval) :=
  match v with
  | PList items => Ok items
  | PDict entries => Ok (map (fun kv => PStr (fst kv)) entries)
  | PStr s => Ok (map PStr (code_points s))
  | _ => Raise (TypeError ("'" +++ type_name v +++ "' object is not iterable"))
  end.

(** [enumerate(l, start)]. *)
Fixpoint enumerate {A : Type} (start : nat) (l : list A) : list (nat * A) :=
  match l with
  | [] => []
  | x :: l' => (start, x) :: enumerate (S start) l'
  end.

(** [l.sort(key=key, reverse=True)]: the stable sort by descending key.
    Python's sort keeps elements of equal key in their original order,
    also under [reverse=True]; stable insertion computes that
    unique list. *)
Section Sort.
Context {A : Type} (key : A -> Z).

Fixpoint insert_desc (x : A) (l : list A) : list A :=
  match l with
  | [] => [x]
  | y :: l' =>
      if (key x <? key y)%Z then y :: insert_desc x l' else x :: y :: l'
  end.

Fixpoint sort_reverse (l : list A) : list A :=
  match l with
  | [] => []
  | x :: l' => insert_desc x (sort_reverse l')
  end.

End Sort.

(** ** The platform's data *)

(** A comment of a thread, as the fetcher reads it. *)
Record comment : Type := { score : Z; body : string }.

(** A thread; [selftext] may be absent. *)
Record Submission : Type := { title : string; selftext : option string }.

(** ** The fetcher's pure steps (lines 22 to 28) *)

(** [comments.sort(key=lambda x: x.score, reverse=True)] followed by
    [comments[:min(10, len(comments))]]. *)
Definition top_comments (comments : list comment) : list comment :=
  let comments := sort_reverse score comments in
  firstn (Nat.min 10 (List.length comments)) comments.

(** [post.selftext if post.selftext else '[No body text]']. *)
Definition body_or_marker (post : Submission) : string :=
  match selftext post with
  | Some text => if String.eqb text "" then "[No body text]" else text
  | None => "[No body text]"
  end.

(** One pass of the loop of lines 27 and 28. *)
Definition comment_line (ic : nat * comment) : string :=
  "Comment " +++ str_of_nat (fst ic) +++ ": " +++ body (snd ic) +++ nl.

(** The text bundle of one thread (lines 25 to 28). *)
Definition format_post (post : Submission) (top_comments : list comment) : string :=
  let formatted_output := "Title: " +++ title post +++ nl in
  let formatted_output :=
    formatted_output +++ ("Post: " +++ body_or_marker post +++ nl) in
  fold_left (fun out ic => out +++ comment_line ic)
            (enumerate 1 top_comments) formatted_output.

(** ** pandas: the table built by [pd.DataFrame] *)

(** A table: its column labels and its rows, one cell per column. *)
Record Frame : Type := { columns : list pyval; rows : list (list pyval) }.

(** The cell pandas writes where a record has no value for a column. *)
Definition NaN : pyval := PFloat S754_nan.

Definition is_str (v : pyval) : bool :=
  match v with PStr _ => true | _ => false end.

(** A dict whose values are all strings. *)
Definition is_record (v : pyval) : bool :=
  match v with
  | PDict entries => forallb (fun kv => is_str (snd kv)) entries
  | _ => false
  end.

(** [d.get(k)] on a dict. *)
Fixpoint lookup (k : string) (entries : list (string * pyval)) : option pyval :=
  match entries with
  | [] => None
  | (k', v) :: rest => if String.eqb k k' then Some v else lookup k rest
  end.

(** Column labels of a list of records: the keys in order of first
    appearance. *)
Definition add_keys (seen : list string) (entries : list (string * pyval)) : list string :=
  fold_left (fun seen kv =>
               if existsb (String.eqb (fst kv)) seen then seen else seen ++ [fst kv])
            entries seen.

Definition record_columns (data : list pyval) : list string :=
  fold_left (fun seen v => match v with PDict entries => add_keys seen entries | _ => seen end)
            data [].

Definition record_row (cols : list string) (v : pyval) : list pyval :=
  match v with
  | PDict entries =>
      map (fun c => match lookup c entries with Some x => x | None => NaN end) cols
  | _ => []
  end.

(** [pd.DataFrame(data)] for a list [data].  Two shapes are modelled: a
    list of dicts whose values are strings gives one row per dict and
    one column per key, each cell the string of the dict or [NaN] where
    the dict has no such key; and a list of strings gives the single
    column labelled [0].  On any other shape (dicts with numbers, [None]
    or nested values, whose columns pandas converts; mixed or nested
    lists) the library's behaviour is left open ([other]): it may raise
    or build any table. *)
Definition DataFrame (other : list pyval -> Res Frame) (data : list pyval) : Res Frame :=
  if forallb is_record data then
    let cols := record_columns data in
    Ok {| columns := map PStr cols; rows := map (record_row cols) data |}
  else if forallb is_str data then
    Ok {| columns := [PInt 0]; rows := map (fun v => [v]) data |}
  else other data.

(** ** The outside world *)

(** What the program calls and does not define.  The platform, the model
    provider and the file system have state of their own, [world]; each
    call returns a value or raises, and moves that state.
    - [subreddit_top id secret agent name limit]: lines 10 to 16, the
      client, the community and its top threads of the day;
    - [comments_list post]: lines 20 and 21, [replace_more(limit=0)] and
      the comment list of the thread;
    - [generate_content key prompt]: lines 41 to 51 and the [.text] of the
      response, for the model configured at lines 42 to 48;
    - [json_loads text]: [json.loads], with its three outcomes;
    - [DataFrame_other]: [pd.DataFrame] outside the modelled shapes;
    - [to_excel df filename]: the write of the spreadsheet file;
    - [to_csv df]: [df.to_csv(index=False).encode('utf-8')], in memory. *)
Class Externals : Type := {
  world : Type;
  subreddit_top : string -> string -> string -> string -> Z ->
                  world -> Res (list Submission) * world;
  comments_list : Submission -> world -> Res (list comment) * world;
  generate_content : string -> string -> world -> Res string * world;
  json_loads : string -> loads_result;
  DataFrame_other : list pyval -> Res Frame;
  to_excel : Frame -> string -> world -> Res unit * world;
  to_csv : Frame -> string
}.

(** What the operator sees: the calls to [st.*], in order. *)
Inductive ui_event : Type :=
| StError (msg : string)
| StWarning (msg : string)
| StSuccess (msg : string)
| StSpinner (msg : string)
| StProgress (num den : nat)
| StDataframe (df : Frame)
| StDownloadButton (label data file_name mime : string).

Section Program.
Context {E : Externals}.

(** The state a run threads: the outside world, the page, and the list
    [all_qa_pairs] that [main] extends in place. *)
Record state : Type := {
  outside : world;
  ui : list ui_event;
  all_qa_pairs : list pyval
}.

(** Computations: they read and write the state and return or raise. *)
Definition M (A : Type) : Type := state -> Res A * state.

Definition ret {A : Type} (a : A) : M A := fun s => (Ok a, s).

Definition bind {A B : Type} (c : M A) (k : A -> M B) : M B :=
  fun s => match c s with
           | (Ok a, s') => k a s'
           | (Raise e, s') => (Raise e, s')
           end.

Definition lift {A : Type} (r : Res A) : M A := fun s => (r, s).

(** The three ways a step changes the state. *)
Definition moved (w : world) (s : state) : state :=
  {| outside := w; ui := ui s; all_qa_pairs := all_qa_pairs s |}.

Definition shown (ev : ui_event) (s : state) : state :=
  {| outside := outside s; ui := ui s ++ [ev]; all_qa_pairs := all_qa_pairs s |}.

Definition stored (l : list pyval) (s : state) : state :=
  {| outside := outside s; ui := ui s; all_qa_pairs := l |}.

(** A call to the outside world. *)
Definition call {A : Type} (op : world -> Res A * world) : M A :=
  fun s => let (r, w) := op (outside s) in (r, moved w s).

(** A call to [st.*]. *)
Definition emit (ev : ui_event) : M unit := fun s => (Ok tt, shown ev s).

Definition set_all_qa_pairs (l : list pyval) : M unit :=
  fun s => (Ok tt, stored l s).

Definition get_all_qa_pairs : M (list pyval) :=
  fun s => (Ok (all_qa_pairs s), s).

(** [try: c  except Exception as e: h e]. *)
Definition try_except {A : Type} (c : M A) (h : exception -> M A) : M A :=
  fun s => match c s with
           | (Ok a, s') => (Ok a, s')
           | (Raise e, s') => h e s'
           end.

End Program.

Notation "x <- c ;; k" := (bind c (fun x => k))
  (at level 61, c at next level, right associativity).
Notation "c ;; k" := (bind c (fun _ => k))
  (at level 61, right associativity).

(** ** The program *)

Section App.
Context {E : Externals}.

(** The loop of lines 19 to 29. *)
Fixpoint fetch_posts (top_posts : list Submission) (all_posts_data : list string)
  : M (list string) :=
  match top_posts with
  | [] => ret all_posts_data
  | post :: rest =>
      comments <- call (comments_list post) ;;
      let formatted_output := format_post post (top_comments comments) in
      fetch_posts rest (all_posts_data ++ [formatted_output])
  end.

(** The message of each [except] clause (lines 32 to 37); the clauses are
    tried in order, the last one takes every other exception. *)
Definition except_message (e : exception) : string :=
  match e with
  | PRAWException _ => "PRAW Error: " +++ str_of_exception e
  | ResponseException _ =>
      "ResponseException: " +++ str_of_exception e
        +++ ". Please check your Reddit API credentials."
  | _ => "An unexpected error occurred: " +++ str_of_exception e
  end.

(** Lines 8 to 38.  The result is [None] where the source returns
    [None]. *)
Definition get_trending_posts_with_comments
  (reddit_client_id reddit_client_secret reddit_user_agent subreddit_name : string)
  (num_posts : Z) : M (option (list string)) :=
  try_except
    (top_posts <- call (subreddit_top reddit_client_id reddit_client_secret
                                      reddit_user_agent subreddit_name num_posts) ;;
     all_posts_data <- fetch_posts top_posts [] ;;
     ret (Some all_posts_data))
    (fun e => emit (StError (except_message e)) ;; ret None).

(** The messages of lines 57, 100 and 105; [i] counts from 0. *)
Definition parse_error_message : string :=
  "Error: Unable to parse JSON response from Gemini API".

Definition converting_message (i n : nat) : string :=
  "Converting post " +++ str_of_nat (i + 1) +++ "/" +++ str_of_nat n
    +++ " to Q&A format...".

Definition failed_message (i : nat) : string :=
  "Failed to convert post " +++ str_of_nat (i + 1) +++ " to Q&A format.".

(** Line 50, the prompt built around the bundle. *)
Definition raw_data_prompt (information : string) : string :=
  "Raw_data : ====================" +++ nl +++ " " +++ information +++ nl
    +++ "====================" +++ nl.

(** Lines 40 to 58.  The call to the model is outside the [try]; only the
    decoding is guarded, and only against [JSONDecodeError]: another
    exception of [json.loads] leaves the function. *)
Definition convert_to_qa (gemini_api_key information : string) : M pyval :=
  let prompt := raw_data_prompt information in
  response_text <- call (generate_content gemini_api_key prompt) ;;
  match json_loads response_text with
  | Loaded qa_pairs => ret qa_pairs
  | JSONDecodeError =>
      emit (StError parse_error_message) ;;
      ret PNone
  | LoadsRaised e => lift (Raise e)
  end.

(** Line 61: [[item for sublist in qa_data for item in sublist]]. *)
Fixpoint flatten (qa_data : list pyval) : Res (list pyval) :=
  match qa_data with
  | [] => Ok []
  | sublist :: rest =>
      match iter sublist with
      | Raise e => Raise e
      | Ok items =>
          match flatten rest with
          | Raise e => Raise e
          | Ok more => Ok (items ++ more)
          end
      end
  end.

(** Lines 60 to 65. *)
Definition save_to_excel (qa_data : list pyval) (filename : string) : M Frame :=
  flat_data <- lift (flatten qa_data) ;;
  df <- lift (DataFrame DataFrame_other flat_data) ;;
  call (to_excel df filename) ;;
  emit (StSuccess ("Data saved to " +++ filename)) ;;
  ret df.

(** The default of [filename]. *)
Definition reddit_qa_xlsx : string := "reddit_qa.xlsx".

(** [all_qa_pairs.extend(qa_pairs)]. *)
Definition extend (qa_pairs : pyval) : M unit :=
  items <- lift (iter qa_pairs) ;;
  acc <- get_all_qa_pairs ;;
  set_all_qa_pairs (acc ++ items).

(** Lines 102 to 105: what the driver does with the transformer's
    result. *)
Definition accumulate (i : nat) (qa_pairs : pyval) : M unit :=
  if truthy qa_pairs then extend qa_pairs
  else emit (StWarning (failed_message i)).

(** One pass of the loop of lines 99 to 106; [n] is
    [len(reddit_content)]. *)
Definition convert_post (gemini_api_key : string) (n i : nat) (post_content : string)
  : M unit :=
  emit (StSpinner (converting_message i n)) ;;
  qa_pairs <- convert_to_qa gemini_api_key post_content ;;
  accumulate i qa_pairs ;;
  emit (StProgress (i + 1) n).

(** The loop of lines 99 to 106, from index [i] on. *)
Fixpoint convert_posts (gemini_api_key : string) (n i : nat) (reddit_content : list string)
  : M unit :=
  match reddit_content with
  | [] => ret tt
  | post_content :: rest =>
      convert_post gemini_api_key n i post_content ;;
      convert_posts gemini_api_key n (S i) rest
  end.

(** The values of the sidebar widgets and of the button. *)
Record Inputs : Type := {
  reddit_client_id : string;
  reddit_client_secret : string;
  reddit_user_agent : string;
  gemini_api_key : string;
  subreddit : string;
  num_posts : Z;
  start_scraping : bool
}.

Definition nonempty (s : string) : bool := negb (String.eqb s "").

(** Lines 108 to 123. *)
Definition finish : M unit :=
  acc <- get_all_qa_pairs ;;
  match acc with
  | _ :: _ =>
      df <- save_to_excel [PList acc] reddit_qa_xlsx ;;
      emit (StDataframe df) ;;
      let csv := to_csv df in
      emit (StDownloadButton "Download data as CSV" csv "reddit_qa.csv" "text/csv")
  | [] => emit (StError "No Q&A pairs were generated.")
  end.

(** Lines 84 to 125, the body of the page. *)
Definition main (inp : Inputs) : M unit :=
  if start_scraping inp then
    if negb (forallb nonempty [reddit_client_id inp; reddit_client_secret inp;
                               reddit_user_agent inp; gemini_api_key inp;
                               subreddit inp]) then
      emit (StError "Please fill in all the required fields in the sidebar.")
    else
      emit (StSpinner "Scraping posts...") ;;
      reddit_content <- get_trending_posts_with_comments
                          (reddit_client_id inp) (reddit_client_secret inp)
                          (reddit_user_agent inp) (subreddit inp) (num_posts inp) ;;
      match reddit_content with
      | Some ((_ :: _) as reddit_content) =>
          let n := List.length reddit_content in
          emit (StSuccess ("Retrieved " +++ str_of_nat n +++ " posts from r/"
                             +++ subreddit inp +++ ".")) ;;
          emit (StProgress 0 1) ;;
          set_all_qa_pairs [] ;;
          convert_posts (gemini_api_key inp) n 0 reddit_content ;;
          finish
      | _ => emit (StError ("No posts found in r/" +++ subreddit inp))
      end
  else ret tt.

End App.

(** ** Vocabulary of the statements *)

(** Position [p] of the retrieved list comes before position [q] in the
    ranking: its comment has the higher score, or the same score and the
    earlier position. *)
Definition ranked_before (comments : list comment) (p q : nat) : Prop :=
  exists a b,
    nth_error comments p = Some a /\ nth_error comments q = Some b /\
    ((score b < score a)%Z \/ (score a = score b /\ (p < q)%nat)).

(** The same order on elements tagged with their position. *)
Definition tagged_before {A : Type} (key : A -> Z) (x y : nat * A) : Prop :=
  (key (snd y) < key (snd x))%Z \/
  (key (snd x) = key (snd y) /\ (fst x < fst y)%nat).

(** The comment lines of a bundle, numbered from 1. *)
Definition comment_lines (kept : list comment) : string :=
  fold_right String.append "" (map comment_line (enumerate 1 kept)).

(** The bundle of a thread and of the comments retrieved for it. *)
Definition bundle_of (pc : Submission * list comment) : string :=
  format_post (fst pc) (top_comments (snd pc)).

(** A QA record of the data model, and the dicts that carry one: the two
    keys, in either order. *)
Record QARecord : Type := { question : string; answer : string }.

Definition carries (v : pyval) (r : QARecord) : Prop :=
  v = PDict [("question", PStr (question r)); ("answer", PStr (answer r))] \/
  v = PDict [("answer", PStr (answer r)); ("question", PStr (question r))].

(** The cell of a record under a column label. *)
Definition qa_cell (r : QARecord) (label : string) : pyval :=
  if String.eqb label "question" then PStr (question r) else PStr (answer r).

(** The table of a sequence of records, for an order of the two
    columns. *)
Definition qa_table (labels : list string) (records : list QARecord) : Frame :=
  {| columns := map PStr labels;
     rows := map (fun r => map (qa_cell r) labels) records |}.

Section Faults.
Context {E : Externals}.

(** A fault of the fetch stage, with the exception raised and the state
    it leaves: either the listing of the threads raises, or the listing
    returns, the comments of the threads [before] are fetched, and
    fetching the comments of the next thread raises. *)
Inductive fetch_fault (id secret agent name : string) (limit : Z) (s : state)
  : exception -> state -> Prop :=
| fault_in_listing (e : exception) (w : world) :
    subreddit_top id secret agent name limit (outside s) = (Raise e, w) ->
    fetch_fault id secret agent name limit s e (moved w s)
| fault_in_comments (e : exception) (w w1 : world) (s1 : state)
                    (before after : list Submission) (post : Submission)
                    (bundles : list string) :
    subreddit_top id secret agent name limit (outside s)
      = (Ok (before ++ post :: after), w) ->
    fetch_posts before [] (moved w s) = (Ok bundles, s1) ->
    comments_list post (outside s1) = (Raise e, w1) ->
    fetch_fault id secret agent name limit s e (moved w1 s1).


(** The comments retrieved for a run of threads, one fetch per thread in
    order, from one state of the world to another. *)
Inductive comments_fetched
  : list Submission -> world -> list (list comment) -> world -> Prop :=
| fetched_none (w : world) : comments_fetched [] w [] w
| fetched_next (post : Submission) (rest : list Submission) (w w1 w' : world)
               (comments : list comment) (retrieved : list (list comment)) :
    comments_list post w = (Ok comments, w1) ->
    comments_fetched rest w1 retrieved w' ->
    comments_fetched (post :: rest) w (comments :: retrieved) w'.

(** The replies of the model to a run of bundles, from one state of the
    world to another, with the records each bundle yields: the items of
    the list its reply decodes to, or none when the reply is rejected
    with [JSONDecodeError]. *)
Inductive transformed (key : string)
  : list string -> world -> list (list pyval) -> world -> Prop :=
| transformed_none (w : world) : transformed key [] w [] w
| transformed_list (bundle : string) (rest : list string) (w w1 w' : world)
                   (text : string) (items : list pyval) (per : list (list pyval)) :
    generate_content key (raw_data_prompt bundle) w = (Ok text, w1) ->
    json_loads text = Loaded (PList items) ->
    transformed key rest w1 per w' ->
    transformed key (bundle :: rest) w (items :: per) w'
| transformed_malformed (bundle : string) (rest : list string) (w w1 w' : world)
                        (text : string) (per : list (list pyval)) :
    generate_content key (raw_data_prompt bundle) w = (Ok text, w1) ->
    json_loads text = JSONDecodeError ->
    transformed key rest w1 per w' ->
    transformed key (bundle :: rest) w ([] :: per) w'.

(** The aggregator as the specification words it: it accepts the flat
    sequence of records and builds the table from it, with no wrapper to
    flatten. *)
Definition aggregate_flat (flat_data : list pyval) (filename : string) : M Frame :=
  df <- lift (DataFrame DataFrame_other flat_data) ;;
  call (to_excel df filename) ;;
  emit (StSuccess ("Data saved to " +++ filename)) ;;
  ret df.

End Faults.

(** ** A scripted world, for ground runs

    The platform answers from a script: the outcome of the listing, then
    one outcome per fetch of comments and one per call to the model, in
    call order.  Documents are decoded from two tables, one of the
    texts that decode to a value and one of the texts on which
    [json.loads] raises another exception than [JSONDecodeError]; each
    text used in a ground run below has the outcome [json.loads] gives
    it, and a text outside the tables is rejected with
    [JSONDecodeError].  The file system either accepts writes or
    refuses them. *)
Record Script : Type := {
  listing : Res (list Submission);
  threads : list (Res (list comment));
  replies : list (Res string);
  disk_writable : bool;
  files : list (string * Frame)
}.

Definition script_exhausted : exception :=
  OtherException "RuntimeError" "script exhausted".

Definition scripted_comments (w : Script) : Res (list comment) * Script :=
  match threads w with
  | r :: rest =>
      (r, {| listing := listing w; threads := rest; replies := replies w;
             disk_writable := disk_writable w; files := files w |})
  | [] => (Raise script_exhausted, w)
  end.

Definition scripted_reply (w : Script) : Res string * Script :=
  match replies w with
  | r :: rest =>
      (r, {| listing := listing w; threads := threads w; replies := rest;
             disk_writable := disk_writable w; files := files w |})
  | [] => (Raise script_exhausted, w)
  end.

Definition permission_denied : exception :=
  OSError "[Errno 13] Permission denied: 'reddit_qa.xlsx'".

Definition scripted_write (df : Frame) (filename : string) (w : Script)
  : Res unit * Script :=
  if disk_writable w then
    (Ok tt, {| listing := listing w; threads := threads w; replies := replies w;
               disk_writable := true; files := files w ++ [(filename, df)] |})
  else (Raise permission_denied, w).

(** Very deep nesting: a thousand opening brackets. *)
Definition deep_nesting : string := string_of_list_ascii (repeat "["%char 1000).

(** An integer of 4301 digits, one more than [int] converts. *)
Definition long_integer : string := string_of_list_ascii (repeat "1"%char 4301).

Definition recursion_error : exception :=
  OtherException "RecursionError"
    "maximum recursion depth exceeded while decoding a JSON array from a unicode string".

Definition digit_limit_error : exception :=
  OtherException "ValueError"
    "Exceeds the limit (4300 digits) for integer string conversion: value has 4301 digits; use sys.set_int_max_str_digits() to increase the limit".

Definition raising_documents : list (string * exception) :=
  [ (deep_nesting, recursion_error); (long_integer, digit_limit_error) ].

Fixpoint decode_raising (table : list (string * exception)) (text : string)
  : loads_result :=
  match table with
  | [] => JSONDecodeError
  | (doc, e) :: rest =>
      if String.eqb text doc then LoadsRaised e else decode_raising rest text
  end.

Fixpoint decode (documents : list (string * pyval)) (text : string) : loads_result :=
  match documents with
  | [] => decode_raising raising_documents text
  | (doc, v) :: rest => if String.eqb text doc then Loaded v else decode rest text
  end.

(** A plain rendering of a table, enough for cells without commas,
    quotes or line feeds. *)
Definition cell_text (v : pyval) : string :=
  match v with
  | PStr s => s
  | PInt n => str_of_nat (Z.to_nat n)
  | _ => ""
  end.

Definition csv_line (cells : list pyval) : string :=
  String.concat "," (map cell_text cells) +++ nl.

Definition plain_csv (df : Frame) : string :=
  fold_right String.append "" (map csv_line (columns df :: rows df)).

Definition scripted (documents : list (string * pyval)) : Externals := {|
  world := Script;
  subreddit_top := fun _ _ _ _ _ w => (listing w, w);
  comments_list := fun _ w => scripted_comments w;
  generate_content := fun _ _ w => scripted_reply w;
  json_loads := decode documents;
  DataFrame_other := fun _ => Raise (OtherException "ValueError" "shape outside the script");
  to_excel := scripted_write;
  to_csv := plain_csv
|}.

(** The double quote, and documents of the ground runs. *)
Definition dq : string := String "034"%char EmptyString.

Definition quoted (s : string) : string := dq +++ s +++ dq.

(** The text [[{"question": q, "answer": a}, ...]] of a list of pairs. *)
Definition qa_object (qa : string * string) : string :=
  "{" +++ quoted "question" +++ ": " +++ quoted (fst qa) +++ ", "
      +++ quoted "answer" +++ ": " +++ quoted (snd qa) +++ "}".

Definition qa_document (qas : list (string * string)) : string :=
  "[" +++ String.concat ", " (map qa_object qas) +++ "]".

(** The record a question and an answer decode to. *)
Definition qa_record (qa : string * string) : pyval :=
  PDict [("question", PStr (fst qa)); ("answer", PStr (snd qa))].

Definition qa_value (qas : list (string * string)) : pyval :=
  PList (map qa_record qas).

(** A string of two characters of three bytes each, U+65E5 and
    U+672C. *)
Definition nichi : string :=
  String "230"%char (String "151"%char (String "165"%char EmptyString)).

Definition hon : string :=
  String "230"%char (String "156"%char (String "172"%char EmptyString)).

Definition nihon : string := nichi +++ hon.

(** The documents of the ground runs, each with its decoded value. *)
Definition thread_a : list (string * string) :=
  [("Q1", "A1"); ("Q2", "A2"); ("Q3", "A3")].

Definition thread_c : list (string * string) := [("Q4", "A4")].

Definition documents : list (string * pyval) :=
  [ (qa_document thread_a, qa_value thread_a);
    (qa_document thread_c, qa_value thread_c);
    ("[]", PList []);
    ("5", PInt 5);
    ("NaN", PFloat S754_nan);
    (quoted nihon, PStr nihon);
    ("[" +++ quoted "a" +++ ", " +++ quoted "b" +++ "]", PList [PStr "a"; PStr "b"]);
    ("{" +++ quoted "question" +++ ": " +++ quoted "Q" +++ ", "
         +++ quoted "answer" +++ ": " +++ quoted "A" +++ "}",
     qa_record ("Q", "A")) ].

Definition the_inputs : Inputs := {|
  reddit_client_id := "id";
  reddit_client_secret := "secret";
  reddit_user_agent := "agent";
  gemini_api_key := "key";
  subreddit := "python";
  num_posts := 10;
  start_scraping := true
|}.

Definition thread (t : string) : Submission := {| title := t; selftext := None |}.

(** The first state of a run in the scripted world. *)
Definition start (w : Script) : @state (scripted documents) :=
  @Build_state (scripted documents) w [] [].

(** Scripts of the ground runs: three listed threads without comments and
    the replies of the model to their bundles. *)
Definition run_with (rs : list (Res string)) (writable : bool) : Script := {|
  listing := Ok [thread "A"; thread "B"; thread "C"];
  threads := [Ok []; Ok []; Ok []];
  replies := rs;
  disk_writable := writable;
  files := []
|}.

Definition unavailable : exception :=
  OtherException "ServiceUnavailable" "503 The model is overloaded.".

(** The second reply is malformed. *)
Definition second_malformed : Script :=
  run_with [Ok (qa_document thread_a); Ok "not json"; Ok (qa_document thread_c)] true.

(** The second call to the model raises. *)
Definition second_unavailable : Script :=
  run_with [Ok (qa_document thread_a); Raise unavailable; Ok (qa_document thread_c)] true.

(** The second reply is the empty list. *)
Definition second_empty : Script :=
  run_with [Ok (qa_document thread_a); Ok "[]"; Ok (qa_document thread_c)] true.

(** The state after the first bundle in these runs. *)
Definition after_first (w : Script) : @state (scripted documents) :=
  snd (convert_posts (E := scripted documents) "key" 3 0 ["bundle A"] (start w)).

(** The world after the second call to the model in these runs. *)
Definition after_second_call (w : Script) : Script :=
  snd (scripted_reply (snd (scripted_reply w))).

(** The first reply is a list of strings, the others are empty lists. *)
Definition strings_document : string :=
  "[" +++ quoted "a" +++ ", " +++ quoted "b" +++ "]".

Definition strings_reply : Script :=
  run_with [Ok strings_document; Ok "[]"; Ok "[]"] true.

(** The first reply is a number. *)
Definition number_reply : Script :=
  run_with [Ok "5"; Ok "[]"; Ok "[]"] true.

(** The replies are as in [second_malformed]; the file cannot be
    written. *)
Definition write_refused : Script :=
  run_with [Ok (qa_document thread_a); Ok "not json"; Ok (qa_document thread_c)] false.

Definition three_bundles : list string := ["bundle A"; "bundle B"; "bundle C"].

(** The state after the loop over the three bundles. *)
Definition after_loop (w : Script) : @state (scripted documents) :=
  snd (convert_posts (E := scripted documents) "key" 3 0 three_bundles (start w)).

(** The typed records of a list of pairs. *)
Definition qa_typed (qa : string * string) : QARecord :=
  {| question := fst qa; answer := snd qa |}.

(** Two listed threads whose comments arrive. *)
Definition both_threads_arrive : Script := {|
  listing := Ok [thread "A"; thread "B"];
  threads := [Ok [ {| score := 1; body := "c" |} ]; Ok []];
  replies := [];
  disk_writable := true;
  files := []
|}.

(** Two listed threads; the comments of the first arrive, the fetch of
    the comments of the second is refused. *)
Definition refused : exception := ResponseException "received 401 HTTP response".

Definition second_thread_fails : Script := {|
  listing := Ok [thread "A"; thread "B"];
  threads := [Ok [ {| score := 1; body := "c" |} ]; Raise refused];
  replies := [];
  disk_writable := true;
  files := []
|}.

(** The first reply is an object, not a list. *)
Definition object_document : string :=
  "{" +++ quoted "question" +++ ": " +++ quoted "Q" +++ ", "
      +++ quoted "answer" +++ ": " +++ quoted "A" +++ "}".

Definition object_reply : Script :=
  run_with [Ok object_document; Ok "[]"; Ok "[]"] true.

(** ** Vocabulary of the further properties *)

Definition is_progress (ev : ui_event) : bool :=
  match ev with StProgress _ _ => true | _ => false end.

Definition is_warning (ev : ui_event) : bool :=
  match ev with StWarning _ => true | _ => false end.

Definition is_error (ev : ui_event) : bool :=
  match ev with StError _ => true | _ => false end.

(** The fields that line 85 requires. *)
Definition required_fields (inp : Inputs) : list string :=
  [reddit_client_id inp; reddit_client_secret inp; reddit_user_agent inp;
   gemini_api_key inp; subreddit inp].

Section MainVocabulary.
Context {E : Externals}.

(** The call of the fetcher by [main] (lines 88 to 91), from the state
    in which the button is pressed. *)
Definition fetch_of (inp : Inputs) (s : state) : Res (option (list string)) * state :=
  get_trending_posts_with_comments
    (reddit_client_id inp) (reddit_client_secret inp) (reddit_user_agent inp)
    (subreddit inp) (num_posts inp)
    (shown (StSpinner "Scraping posts...") s).

(** The state in which the loop of [main] starts (lines 94 to 97), when
    the fetcher has returned [n] bundles in state [s]. *)
Definition ready (inp : Inputs) (n : nat) (s : state) : state :=
  stored []
    (shown (StProgress 0 1)
       (shown (StSuccess ("Retrieved " +++ str_of_nat n +++ " posts from r/"
                            +++ subreddit inp +++ ".")) s)).

End MainVocabulary.

(** No reply of the model: the listing is empty. *)
Definition nothing_listed : Script := {|
  listing := Ok [];
  threads := [];
  replies := [];
  disk_writable := true;
  files := []
|}.

(** Every reply is malformed or empty. *)
Definition nothing_usable : Script :=
  run_with [Ok "not json"; Ok "[]"; Ok "not json"] true.

(** The inputs with an empty user agent. *)
Definition missing_agent : Inputs := {|
  reddit_client_id := "id";
  reddit_client_secret := "secret";
  reddit_user_agent := "";
  gemini_api_key := "key";
  subreddit := "python";
  num_posts := 10;
  start_scraping := true
|}.

(** The state after the fetch in the runs of three threads without
    comments, and their bundles. *)
Definition fetched (w : Script) : @state (scripted documents) :=
  snd (fetch_of (E := scripted documents) the_inputs (start w)).

Definition empty_bundle (t : string) : string := format_post (thread t) [].

(** The scripted world after [k] calls to the model. *)
Fixpoint after_replies (k : nat) (w : Script) : Script :=
  match k with
  | O => w
  | S k' => after_replies k' (snd (scripted_reply w))
  end.

Definition three_empty_bundles : list string :=
  [empty_bundle "A"; empty_bundle "B"; empty_bundle "C"].

(** The second reply is [NaN], which is not JSON and which [json.loads]
    decodes to a float. *)
Definition second_nan : Script :=
  run_with [Ok (qa_document thread_a); Ok "NaN"; Ok (qa_document thread_c)] true.

(** The second reply is the thousand opening brackets. *)
Definition second_deep : Script :=
  run_with [Ok (qa_document thread_a); Ok deep_nesting; Ok (qa_document thread_c)] true.

(** The first reply is the integer of 4301 digits. *)
Definition long_integer_reply : Script :=
  run_with [Ok long_integer; Ok "[]"; Ok "[]"] true.

(** The first reply is a string of two characters outside ASCII. *)
Definition nihon_reply : Script :=
  run_with [Ok (quoted nihon); Ok "[]"; Ok "[]"] true.
(** * Properties *)

(** ** The stable descending sort *)

Section SortFacts.
Context {A : Type} (key : A -> Z).

Lemma insert_desc_perm (x : A) (l : list A) :
  Permutation (insert_desc key x l) (x :: l).
Proof.
  induction l as [|y l IH]; simpl; [reflexivity|].
  destruct (key x <? key y)%Z; [|reflexivity].
  etransitivity; [apply perm_skip, IH | apply perm_swap].
Qed.

Lemma sort_reverse_perm (l : list A) : Permutation (sort_reverse key l) l.
Proof.
  induction l as [|x l IH]; simpl; [reflexivity|].
  etransitivity; [apply insert_desc_perm | apply perm_skip, IH].
Qed.

Lemma sort_reverse_length (l : list A) :
  List.length (sort_reverse key l) = List.length l.
Proof. apply Permutation_length, sort_reverse_perm. Qed.

Lemma sort_reverse_Forall (P : A -> Prop) (l : list A) :
  Forall P l -> Forall P (sort_reverse key l).
Proof.
  intros H. eapply Permutation_Forall; [|exact H].
  symmetry. apply sort_reverse_perm.
Qed.

(** Sorting commutes with a map that keeps the keys. *)
Lemma insert_desc_map {B : Type} (f : B -> A) (x : B) (l : list B) :
  map f (insert_desc (fun b => key (f b)) x l) = insert_desc key (f x) (map f l).
Proof.
  induction l as [|y l IH]; simpl; [reflexivity|].
  destruct (key (f x) <? key (f y))%Z; simpl; [now rewrite IH | reflexivity].
Qed.

Lemma sort_reverse_map {B : Type} (f : B -> A) (l : list B) :
  map f (sort_reverse (fun b => key (f b)) l) = sort_reverse key (map f l).
Proof.
  induction l as [|x l IH]; simpl; [reflexivity|].
  now rewrite insert_desc_map, IH.
Qed.

End SortFacts.

Section Ranked.
Context {A : Type} (key : A -> Z).

(** Inserting an element whose position is below every position of a
    ranked list keeps the list ranked. *)
Lemma insert_desc_ranked (x : nat * A) (l : list (nat * A)) :
  StronglySorted (tagged_before key) l ->
  Forall (fun y => (fst x < fst y)%nat) l ->
  StronglySorted (tagged_before key) (insert_desc (fun y => key (snd y)) x l).
Proof.
  induction 1 as [|y l Hl IH Hy]; intros Hx; simpl.
  - constructor; constructor.
  - inversion Hx as [|? ? Hxy Hxl]; subst.
    destruct (Z.ltb_spec (key (snd x)) (key (snd y))) as [Hlt|Hge].
    + constructor; [apply IH, Hxl|].
      eapply Permutation_Forall; [symmetry; apply insert_desc_perm |].
      constructor; [left; exact Hlt | exact Hy].
    + constructor; [constructor; assumption|].
      constructor.
      * unfold tagged_before. lia.
      * rewrite Forall_forall in *. intros z Hz.
        specialize (Hy z Hz). specialize (Hxl z Hz).
        unfold tagged_before in *. lia.
Qed.

(** Sorting a list tagged with increasing positions ranks it. *)
Lemma sort_reverse_ranked (l : list (nat * A)) :
  StronglySorted (fun x y => (fst x < fst y)%nat) l ->
  StronglySorted (tagged_before key) (sort_reverse (fun y => key (snd y)) l).
Proof.
  induction 1 as [|x l Hl IH Hx]; simpl; [constructor|].
  apply insert_desc_ranked; [exact IH|].
  apply sort_reverse_Forall, Hx.
Qed.

End Ranked.

(** [enumerate] tags each element with its position. *)
Lemma enumerate_spec {A : Type} (l : list A) (start : nat) :
  Forall (fun y => (start <= fst y)%nat /\ nth_error l (fst y - start) = Some (snd y))
         (enumerate start l).
Proof.
  revert start. induction l as [|a l IH]; intros start; simpl; constructor.
  - simpl. rewrite Nat.sub_diag. split; [lia | reflexivity].
  - eapply Forall_impl; [|apply (IH (S start))].
    intros y [Hle Hnth]. split; [lia|].
    replace (fst y - start) with (S (fst y - S start)) by lia. exact Hnth.
Qed.

Lemma enumerate_increasing {A : Type} (l : list A) (start : nat) :
  StronglySorted (fun x y : nat * A => (fst x < fst y)%nat) (enumerate start l).
Proof.
  revert start. induction l as [|a l IH]; intros start; simpl; constructor.
  - apply IH.
  - eapply Forall_impl; [|apply (enumerate_spec l (S start))].
    simpl. intros y [Hle _]. lia.
Qed.

Lemma map_snd_enumerate {A : Type} (l : list A) (start : nat) :
  map snd (enumerate start l) = l.
Proof.
  revert start. induction l as [|a l IH]; intros start; simpl; [reflexivity|].
  now rewrite IH.
Qed.

Lemma StronglySorted_firstn {A : Type} (R : A -> A -> Prop) (k : nat) (l : list A) :
  StronglySorted R l -> StronglySorted R (firstn k l).
Proof.
  intros H. revert k. induction H as [|x l Hl IH Hx]; intros [|k]; simpl;
    try constructor.
  - apply IH.
  - rewrite Forall_forall in *. intros y Hy. apply Hx.
    rewrite <- (firstn_skipn k l). apply in_or_app. now left.
Qed.

Lemma Forall_firstn_of {A : Type} (P : A -> Prop) (k : nat) (l : list A) :
  Forall P l -> Forall P (firstn k l).
Proof.
  rewrite !Forall_forall. intros H y Hy. apply H.
  rewrite <- (firstn_skipn k l). apply in_or_app. now left.
Qed.

(** A ranking carried along a map. *)
Lemma StronglySorted_map_in {A B : Type} (R : A -> A -> Prop) (R' : B -> B -> Prop)
      (f : A -> B) (l : list A) :
  (forall x y, In x l -> In y l -> R x y -> R' (f x) (f y)) ->
  StronglySorted R l -> StronglySorted R' (map f l).
Proof.
  intros Hf H. induction H as [|x l Hl IH Hx]; simpl; constructor.
  - apply IH. intros a b Ha Hb. apply Hf; now right.
  - rewrite Forall_forall in *. intros b Hb.
    apply in_map_iff in Hb as [a [<- Ha]].
    apply Hf; [now left | now right | now apply Hx].
Qed.

(** The kept comments are the first ones of the ranked, position-tagged
    list. *)
Lemma top_comments_tagged (comments : list comment) :
  exists tagged : list (nat * comment),
    top_comments comments = map snd tagged /\
    Forall (fun y => nth_error comments (fst y) = Some (snd y)) tagged /\
    StronglySorted (tagged_before score) tagged.
Proof.
  set (ranked := sort_reverse (fun y : nat * comment => score (snd y))
                              (enumerate 0 comments)).
  assert (Hmap : map snd ranked = sort_reverse score comments).
  { unfold ranked. rewrite (sort_reverse_map score snd).
    now rewrite map_snd_enumerate. }
  exists (firstn (Nat.min 10 (List.length (sort_reverse score comments))) ranked).
  split; [|split].
  - unfold top_comments. now rewrite <- firstn_map, Hmap.
  - apply Forall_firstn_of, sort_reverse_Forall.
    eapply Forall_impl; [|apply (enumerate_spec comments 0)].
    simpl. intros y [_ Hnth]. now rewrite Nat.sub_0_r in Hnth.
  - apply StronglySorted_firstn, sort_reverse_ranked, enumerate_increasing.
Qed.

(** C1.  The comments the fetcher keeps for a thread are at most 10; they
    are in descending order of score; and they are comments of the
    retrieved list, taken at positions that are ranked by score first and,
    between equal scores, by retrieval position: the sort is stable. *)
Theorem top_comments_ranked (comments : list comment) :
  (List.length (top_comments comments) <= 10)%nat /\
  StronglySorted (fun earlier later => (score later <= score earlier)%Z)
                 (top_comments comments) /\
  exists positions : list nat,
    map Some (top_comments comments) = map (nth_error comments) positions /\
    StronglySorted (ranked_before comments) positions.
Proof.
  split; [|split].
  - unfold top_comments. rewrite length_firstn. lia.
  - destruct (top_comments_tagged comments) as [tagged [-> [_ Hs]]].
    eapply StronglySorted_map_in; [|exact Hs].
    intros x y _ _ Hxy. unfold tagged_before in Hxy. lia.
  - destruct (top_comments_tagged comments) as [tagged [-> [Hn Hs]]].
    exists (map fst tagged). split.
    + rewrite !map_map. apply map_ext_in. intros y Hy.
      rewrite Forall_forall in Hn. symmetry. now apply Hn.
    + eapply StronglySorted_map_in; [|exact Hs].
      rewrite Forall_forall in Hn.
      intros x y Hx Hy Hxy. exists (snd x), (snd y).
      split; [now apply Hn | split; [now apply Hn | exact Hxy]].
Qed.

(** Three comments of score 5, 9 and 5: the 9 comes first and the two 5s
    keep their retrieval order. *)
Example top_comments_ties :
  top_comments [ {| score := 5; body := "a" |}; {| score := 9; body := "b" |};
                 {| score := 5; body := "c" |} ]
  = [ {| score := 9; body := "b" |}; {| score := 5; body := "a" |};
      {| score := 5; body := "c" |} ].
Proof. reflexivity. Qed.

(** Twelve comments of increasing score: the ten highest are kept. *)
Example top_comments_truncates :
  map score (top_comments (map (fun n => {| score := Z.of_nat n; body := "" |}) (seq 1 12)))
  = [12; 11; 10; 9; 8; 7; 6; 5; 4; 3]%Z.
Proof. reflexivity. Qed.

(** ** The rendered bundle *)

Lemma append_assoc (a b c : string) : (a +++ b) +++ c = a +++ (b +++ c).
Proof. induction a as [|ch a IH]; simpl; [reflexivity | now rewrite IH]. Qed.

Lemma append_empty_r (a : string) : a +++ "" = a.
Proof. induction a as [|ch a IH]; simpl; [reflexivity | now rewrite IH]. Qed.

Lemma fold_left_append {A : Type} (f : A -> string) (l : list A) (init : string) :
  fold_left (fun out x => out +++ f x) l init
  = init +++ fold_right String.append "" (map f l).
Proof.
  revert init. induction l as [|x l IH]; intros init; simpl.
  - now rewrite append_empty_r.
  - now rewrite IH, append_assoc.
Qed.

(** The bundle is the title line, the body line and the comment lines. *)
Lemma format_post_layout (post : Submission) (kept : list comment) :
  format_post post kept
  = "Title: " +++ title post +++ nl +++
    "Post: " +++ body_or_marker post +++ nl +++ comment_lines kept.
Proof.
  unfold format_post, comment_lines. rewrite fold_left_append.
  now rewrite !append_assoc.
Qed.

(** C8.  Where the body of a thread is absent or empty, the body line of
    its bundle carries the marker [[No body text]]; where the thread has a
    body, the body line carries that body. *)
Theorem format_post_body (post : Submission) (kept : list comment) :
  (selftext post = None \/ selftext post = Some "" ->
   format_post post kept
   = "Title: " +++ title post +++ nl +++
     "Post: " +++ "[No body text]" +++ nl +++ comment_lines kept) /\
  (forall text, selftext post = Some text -> text <> "" ->
   format_post post kept
   = "Title: " +++ title post +++ nl +++
     "Post: " +++ text +++ nl +++ comment_lines kept).
Proof.
  split.
  - intros H. rewrite format_post_layout. unfold body_or_marker.
    destruct H as [-> | ->]; reflexivity.
  - intros text H Hne. rewrite format_post_layout. unfold body_or_marker.
    rewrite H. apply String.eqb_neq in Hne. now rewrite Hne.
Qed.

Lemma format_post_body_witness :
  format_post {| title := "Ask"; selftext := Some "" |} [ {| score := 3; body := "yes" |} ]
  = "Title: Ask" +++ nl +++ "Post: [No body text]" +++ nl +++ "Comment 1: yes" +++ nl
  /\
  format_post {| title := "Ask"; selftext := Some "why?" |} [ {| score := 3; body := "yes" |} ]
  = "Title: Ask" +++ nl +++ "Post: why?" +++ nl +++ "Comment 1: yes" +++ nl.
Proof.
  split.
  - apply (proj1 (format_post_body {| title := "Ask"; selftext := Some "" |}
                                    [ {| score := 3; body := "yes" |} ])).
    right; reflexivity.
  - apply (proj2 (format_post_body {| title := "Ask"; selftext := Some "why?" |}
                                    [ {| score := 3; body := "yes" |} ]) "why?").
    + reflexivity.
    + discriminate.
Defined.

(** ** The fetch stage *)

Section Fetcher.
Context {E : Externals}.

Lemma fetch_posts_app (before after : list Submission) (acc : list string) (s : state) :
  fetch_posts (before ++ after) acc s
  = match fetch_posts before acc s with
    | (Ok acc', s1) => fetch_posts after acc' s1
    | (Raise e, s1) => (Raise e, s1)
    end.
Proof.
  revert acc s. induction before as [|post before IH]; intros acc s; simpl.
  - reflexivity.
  - unfold bind, call. destruct (comments_list post (outside s)) as [[comments|e] w].
    + apply IH.
    + reflexivity.
Qed.

Lemma fetch_posts_length (top_posts : list Submission) (acc out : list string)
      (s s' : state) :
  fetch_posts top_posts acc s = (Ok out, s') ->
  List.length out = (List.length acc + List.length top_posts)%nat.
Proof.
  revert acc s. induction top_posts as [|post rest IH]; intros acc s; simpl.
  - unfold ret. intros [= <- _]. lia.
  - unfold bind, call. destruct (comments_list post (outside s)) as [[comments|e] w].
    + intros H. apply IH in H. rewrite H, length_app. simpl. lia.
    + discriminate.
Qed.

(** What the loop of the fetcher adds: for each listed thread, the
    bundle of the thread and of the comments retrieved for it, ranked and
    cut by [top_comments]. *)
Lemma fetch_posts_renders (top_posts : list Submission) (acc out : list string)
      (s s' : state) :
  fetch_posts top_posts acc s = (Ok out, s') ->
  exists retrieved : list (list comment),
    List.length retrieved = List.length top_posts /\
    out = acc ++ map bundle_of (combine top_posts retrieved).
Proof.
  revert acc s. induction top_posts as [|post rest IH]; intros acc s; simpl.
  - unfold ret. intros [= <- _]. exists []. now rewrite app_nil_r.
  - unfold bind, call. destruct (comments_list post (outside s)) as [[comments|e] w].
    + intros H. apply IH in H as [retrieved [Hlen ->]].
      exists (comments :: retrieved). simpl. split; [now rewrite Hlen|].
      now rewrite <- app_assoc.
    + discriminate.
Qed.

(** Every bundle the fetcher returns is rendered by [format_post] from
    the comments kept by [top_comments]. *)
Lemma fetcher_bundles (id secret agent name : string) (limit : Z)
      (bundles : list string) (s s' : state) :
  get_trending_posts_with_comments id secret agent name limit s
  = (Ok (Some bundles), s') ->
  exists (top_posts : list Submission) (retrieved : list (list comment)),
    List.length retrieved = List.length top_posts /\
    bundles = map bundle_of (combine top_posts retrieved).
Proof.
  unfold get_trending_posts_with_comments, try_except, bind, call.
  destruct (subreddit_top id secret agent name limit (outside s))
    as [[top_posts|e] w].
  - destruct (fetch_posts top_posts [] (moved w s)) as [[out|e] s1] eqn:Hloop.
    + unfold ret. intros [= <- _].
      apply fetch_posts_renders in Hloop as [retrieved [Hlen ->]].
      now exists top_posts, retrieved.
    + unfold emit, ret. discriminate.
  - unfold emit, ret. discriminate.
Qed.

(** C5.  A fault of the fetch stage, in the listing or while fetching the
    comments of any thread, makes the fetcher return [None], after one
    error message: the bundles already rendered are dropped.  And a list
    the fetcher does return is never partial: it has one bundle per
    listed thread. *)
Theorem fetch_all_or_nothing (id secret agent name : string) (limit : Z) (s : state) :
  (forall e s',
     fetch_fault id secret agent name limit s e s' ->
     get_trending_posts_with_comments id secret agent name limit s
     = (Ok None, shown (StError (except_message e)) s')) /\
  (forall bundles s',
     get_trending_posts_with_comments id secret agent name limit s
     = (Ok (Some bundles), s') ->
     exists top_posts w,
       subreddit_top id secret agent name limit (outside s) = (Ok top_posts, w) /\
       List.length bundles = List.length top_posts).
Proof.
  split.
  - intros e s' Hfault.
    unfold get_trending_posts_with_comments, try_except, bind, call.
    destruct Hfault as [e w Hlist | e w w1 s1 before after post bundles Hlist Hpre Hpost].
    + rewrite Hlist. reflexivity.
    + rewrite Hlist, fetch_posts_app, Hpre. simpl.
      unfold bind, call. rewrite Hpost. reflexivity.
  - intros bundles s'.
    unfold get_trending_posts_with_comments, try_except, bind, call.
    destruct (subreddit_top id secret agent name limit (outside s))
      as [[top_posts|e] w] eqn:Hlist.
    + destruct (fetch_posts top_posts [] (moved w s)) as [[out|e] s1] eqn:Hloop.
      * unfold ret. intros [= <- _]. exists top_posts, w. split; [reflexivity|].
        apply fetch_posts_length in Hloop. exact Hloop.
      * unfold emit, ret. discriminate.
    + unfold emit, ret. discriminate.
Qed.

End Fetcher.

Lemma fetch_all_or_nothing_witness :
  get_trending_posts_with_comments "id" "secret" "agent" "python" 10
                                   (start second_thread_fails)
  = (Ok None,
     shown (StError "ResponseException: received 401 HTTP response. Please check your Reddit API credentials.")
           (start {| listing := Ok [thread "A"; thread "B"]; threads := [];
                     replies := []; disk_writable := true; files := [] |}))
  /\
  exists top_posts w,
    subreddit_top (Externals := scripted documents)
                  "id" "secret" "agent" "python" 10 both_threads_arrive
    = (Ok top_posts, w) /\
    (List.length [format_post (thread "A") [ {| score := 1; body := "c" |} ];
                  format_post (thread "B") []]
     = List.length top_posts).
Proof.
  split.
  - apply (proj1 (fetch_all_or_nothing "id" "secret" "agent" "python" 10
                                       (start second_thread_fails)) refused).
    apply (fault_in_comments (E := scripted documents)
             "id" "secret" "agent" "python" 10 (start second_thread_fails)
             refused second_thread_fails
             {| listing := Ok [thread "A"; thread "B"]; threads := [];
                replies := []; disk_writable := true; files := [] |}
             (start {| listing := Ok [thread "A"; thread "B"]; threads := [Raise refused];
                       replies := []; disk_writable := true; files := [] |})
             [thread "A"] [] (thread "B")
             [format_post (thread "A") [ {| score := 1; body := "c" |} ]]);
      reflexivity.
  - apply (proj2 (fetch_all_or_nothing (E := scripted documents)
                    "id" "secret" "agent" "python" 10 (start both_threads_arrive))
                 [format_post (thread "A") [ {| score := 1; body := "c" |} ];
                  format_post (thread "B") []]
                 (start {| listing := Ok [thread "A"; thread "B"]; threads := [];
                           replies := []; disk_writable := true; files := [] |})).
    reflexivity.
Defined.

(** ** The pipeline driver *)

Section Driver.
Context {E : Externals}.

(** The loop over a run of bundles is the loop over its first part, then
    over the rest from the state reached; an exception in the first part
    ends the loop there. *)
Lemma convert_posts_app (key : string) (n i : nat) (before after : list string)
      (s : state) :
  convert_posts key n i (before ++ after) s
  = match convert_posts key n i before s with
    | (Ok _, s1) => convert_posts key n (i + List.length before) after s1
    | (Raise e, s1) => (Raise e, s1)
    end.
Proof.
  revert i s. induction before as [|bundle before IH]; intros i s; simpl.
  - now rewrite Nat.add_0_r.
  - unfold bind.
    destruct (convert_post key n i bundle s) as [[[]|e] s1]; [|reflexivity].
    rewrite IH. now replace (i + S (List.length before))%nat
                      with (S i + List.length before)%nat by lia.
Qed.

(** The transformer on a reply that decodes: the value, as decoded. *)
Lemma convert_to_qa_decoded (key information text : string) (v : pyval)
      (s : state) (w : world) :
  generate_content key (raw_data_prompt information) (outside s) = (Ok text, w) ->
  json_loads text = Loaded v ->
  convert_to_qa key information s = (Ok v, moved w s).
Proof.
  intros Hgen Hjson. unfold convert_to_qa, bind, call.
  rewrite Hgen, Hjson. reflexivity.
Qed.

(** The transformer on a reply that [json.loads] rejects with
    [JSONDecodeError]: an error message and [None]. *)
Lemma convert_to_qa_malformed (key information text : string)
      (s : state) (w : world) :
  generate_content key (raw_data_prompt information) (outside s) = (Ok text, w) ->
  json_loads text = JSONDecodeError ->
  convert_to_qa key information s
  = (Ok PNone, shown (StError parse_error_message) (moved w s)).
Proof.
  intros Hgen Hjson. unfold convert_to_qa, bind, call.
  rewrite Hgen, Hjson. reflexivity.
Qed.

(** The transformer on a reply on which [json.loads] raises another
    exception: the exception, uncaught. *)
Lemma convert_to_qa_loads_raised (key information text : string) (e : exception)
      (s : state) (w : world) :
  generate_content key (raw_data_prompt information) (outside s) = (Ok text, w) ->
  json_loads text = LoadsRaised e ->
  convert_to_qa key information s = (Raise e, moved w s).
Proof.
  intros Hgen Hjson. unfold convert_to_qa, bind, call.
  rewrite Hgen, Hjson. reflexivity.
Qed.

(** The transformer on a fault of the model call: the fault, uncaught. *)
Lemma convert_to_qa_fault (key information : string) (e : exception)
      (s : state) (w : world) :
  generate_content key (raw_data_prompt information) (outside s) = (Raise e, w) ->
  convert_to_qa key information s = (Raise e, moved w s).
Proof.
  intros Hgen. unfold convert_to_qa, bind, call. rewrite Hgen. reflexivity.
Qed.

(** C2, as amended.  Let the loop have processed the bundles [before],
    and let [json.loads] reject the model's reply to the next bundle
    with [JSONDecodeError].  The transformer reports the parse error
    and yields [None], no record; the driver shows the warning for that
    thread and the progress, keeps the records accumulated so far, and
    goes on with the bundles [after]. *)
Theorem malformed_reply_is_skipped (key : string) (n i : nat)
        (before after : list string) (bundle text : string)
        (s s1 : state) (w : world) :
  convert_posts key n i before s = (Ok tt, s1) ->
  generate_content key (raw_data_prompt bundle) (outside s1) = (Ok text, w) ->
  json_loads text = JSONDecodeError ->
  let j := (i + List.length before)%nat in
  let entered := shown (StSpinner (converting_message j n)) s1 in
  let skipped :=
    shown (StProgress (j + 1) n)
      (shown (StWarning (failed_message j))
         (shown (StError parse_error_message) (moved w entered))) in
  convert_to_qa key bundle entered
  = (Ok PNone, shown (StError parse_error_message) (moved w entered)) /\
  all_qa_pairs skipped = all_qa_pairs s1 /\
  ui skipped = ui s1 ++ [StSpinner (converting_message j n);
                         StError parse_error_message;
                         StWarning (failed_message j);
                         StProgress (j + 1) n] /\
  convert_posts key n i (before ++ bundle :: after) s
  = convert_posts key n (S j) after skipped.
Proof.
  intros Hbefore Hgen Hjson j entered skipped.
  assert (Hqa : convert_to_qa key bundle entered
                = (Ok PNone, shown (StError parse_error_message) (moved w entered)))
    by (apply (convert_to_qa_malformed key bundle text); assumption).
  split; [exact Hqa|]. split; [reflexivity|]. split.
  - unfold skipped, entered. simpl. rewrite <- !app_assoc. reflexivity.
  - rewrite convert_posts_app, Hbefore. fold j. simpl.
    unfold bind at 1. unfold convert_post, bind at 1. simpl.
    fold entered. unfold bind at 1. rewrite Hqa. reflexivity.
Qed.

(** C3.  Let the loop have processed the bundles [before], and let the
    call to the model raise on the next bundle.  The exception is not
    caught: the loop ends with it, the bundles [after] are not
    processed, and the accumulated records are those of [before],
    unchanged. *)
Theorem model_fault_keeps_records (key : string) (n i : nat)
        (before after : list string) (bundle : string) (e : exception)
        (s s1 : state) (w : world) :
  convert_posts key n i before s = (Ok tt, s1) ->
  generate_content key (raw_data_prompt bundle) (outside s1) = (Raise e, w) ->
  let j := (i + List.length before)%nat in
  let aborted := moved w (shown (StSpinner (converting_message j n)) s1) in
  convert_posts key n i (before ++ bundle :: after) s = (Raise e, aborted) /\
  all_qa_pairs aborted = all_qa_pairs s1.
Proof.
  intros Hbefore Hgen j aborted. split; [|reflexivity].
  rewrite convert_posts_app, Hbefore. fold j. simpl.
  unfold bind at 1. unfold convert_post, bind at 1. simpl.
  unfold bind at 1.
  rewrite (convert_to_qa_fault key bundle e _ w) by exact Hgen.
  reflexivity.
Qed.

End Driver.

Lemma malformed_reply_is_skipped_witness :
  exists skipped : @state (scripted documents),
    convert_posts "key" 3 0 (["bundle A"] ++ "bundle B" :: ["bundle C"])
                  (start second_malformed)
    = convert_posts "key" 3 2 ["bundle C"] skipped /\
    all_qa_pairs skipped = map qa_record thread_a.
Proof.
  eexists. split.
  - exact (proj2 (proj2 (proj2
      (malformed_reply_is_skipped (E := scripted documents)
         "key" 3 0 ["bundle A"] ["bundle C"] "bundle B" "not json"
         (start second_malformed) (after_first second_malformed)
         (after_second_call second_malformed)
         eq_refl eq_refl eq_refl)))).
  - reflexivity.
Defined.

(** The reply [NaN] is not JSON, and [json.loads] decodes it to a
    float: the transformer returns that float, [extend] raises
    [TypeError] on it and the run ends there, with no warning for the
    thread and the third bundle never sent to the model. *)
Lemma nan_reply_ends_the_run :
  json_loads (Externals := scripted documents) "NaN" = Loaded (PFloat S754_nan) /\
  convert_to_qa "key" "bundle B" (after_first second_nan)
  = (Ok (PFloat S754_nan),
     moved (E := scripted documents)
           (after_second_call second_nan) (after_first second_nan)) /\
  exists final : @state (scripted documents),
    main the_inputs (start second_nan)
    = (Raise (TypeError "'float' object is not iterable"), final) /\
    filter is_warning (ui final) = [] /\
    replies (outside final) = [Ok (qa_document thread_c)] /\
    files (outside final) = [].
Proof.
  split; [reflexivity|]. split; [reflexivity|].
  exists (snd (main the_inputs (start second_nan))).
  split; [vm_compute; reflexivity|]. repeat split; vm_compute; reflexivity.
Qed.

(** A thousand opening brackets are not JSON either, and [json.loads]
    raises [RecursionError] on them, which line 56 does not catch: the
    run ends with it. *)
Example deep_nesting_ends_the_run :
  exists final : @state (scripted documents),
    main the_inputs (start second_deep) = (Raise recursion_error, final) /\
    filter is_warning (ui final) = [] /\
    all_qa_pairs final = map qa_record thread_a.
Proof.
  exists (snd (main the_inputs (start second_deep))).
  split; [vm_compute; reflexivity|]. split; vm_compute; reflexivity.
Qed.

Lemma model_fault_keeps_records_witness :
  exists aborted : @state (scripted documents),
    convert_posts "key" 3 0 (["bundle A"] ++ "bundle B" :: ["bundle C"])
                  (start second_unavailable)
    = (Raise unavailable, aborted) /\
    all_qa_pairs aborted = map qa_record thread_a.
Proof.
  eexists. split.
  - exact (proj1
      (model_fault_keeps_records (E := scripted documents)
         "key" 3 0 ["bundle A"] ["bundle C"] "bundle B" unavailable
         (start second_unavailable) (after_first second_unavailable)
         (after_second_call second_unavailable)
         eq_refl eq_refl)).
  - reflexivity.
Defined.

(** ** What the driver does with the transformer's result *)

(** The characters of a text are counted by code point, not by byte:
    two characters of three bytes each are two items, and a text in
    ASCII has one item per byte. *)
Example code_points_of_text :
  code_points nihon = [nichi; hon] /\ code_points "ab" = ["a"; "b"] /\
  iter (PStr nihon) = Ok [PStr nichi; PStr hon].
Proof. repeat split. Qed.

(** A string that is not empty has at least one character. *)
Lemma code_points_nonempty (c : ascii) (s : string) :
  code_points (String c s) <> [].
Proof.
  unfold code_points. simpl. destruct (split_chars s) as [tail chars].
  destruct (is_continuation c); discriminate.
Qed.

Section Accumulate.
Context {E : Externals}.

Lemma accumulate_falsy (i : nat) (v : pyval) (s : state) :
  truthy v = false ->
  accumulate i v s = (Ok tt, shown (StWarning (failed_message i)) s).
Proof. intros H. unfold accumulate. now rewrite H. Qed.

Lemma accumulate_items (i : nat) (v : pyval) (items : list pyval) (s : state) :
  truthy v = true -> iter v = Ok items ->
  accumulate i v s = (Ok tt, stored (all_qa_pairs s ++ items) s).
Proof.
  intros H Hit. unfold accumulate, extend, bind, lift. now rewrite H, Hit.
Qed.

Lemma length_nonzero {A : Type} (l : list A) :
  l <> [] -> negb (Nat.eqb (List.length l) 0) = true.
Proof. destruct l; [congruence | reflexivity]. Qed.

(** C9.  Where the reply decodes to the empty list, the transformer
    succeeds with that list, and the driver then does what it does with
    the [None] of a failed transform: the truthiness test fails for both,
    the warning for the thread is shown and no record is added. *)
Theorem empty_result_is_reported_as_failure (key : string) (n i : nat)
        (bundle text : string) (s : state) (w : world) :
  generate_content key (raw_data_prompt bundle) (outside s) = (Ok text, w) ->
  json_loads text = Loaded (PList []) ->
  let entered := shown (StSpinner (converting_message i n)) s in
  let warned := shown (StWarning (failed_message i)) (moved w entered) in
  convert_to_qa key bundle entered = (Ok (PList []), moved w entered) /\
  (forall s', accumulate i (PList []) s' = accumulate i PNone s') /\
  (forall s', accumulate i PNone s'
              = (Ok tt, shown (StWarning (failed_message i)) s')) /\
  convert_post key n i bundle s = (Ok tt, shown (StProgress (i + 1) n) warned) /\
  all_qa_pairs warned = all_qa_pairs s.
Proof.
  intros Hgen Hjson entered warned.
  assert (Hqa : convert_to_qa key bundle entered = (Ok (PList []), moved w entered))
    by (apply (convert_to_qa_decoded key bundle text); assumption).
  repeat split; try reflexivity; [exact Hqa|].
  unfold convert_post, bind at 1. simpl. fold entered.
  unfold bind at 1. rewrite Hqa. reflexivity.
Qed.

(** C10, as amended.  Where [json.loads] decodes the reply, the
    transformer returns the decoded value, whatever its shape, and
    shows nothing; where [json.loads] raises another exception than
    [JSONDecodeError], the transformer raises it.  The driver checks no
    shape either: it tests the truth of the value and extends the
    collection with it.  A false value ([null], [false], [0], the empty
    string, list or object) is reported as a failed conversion; the items
    of a non-empty list are appended as they are; a non-empty object adds
    its keys; a non-empty string adds its characters; a number other than
    zero, or [true], makes [extend] raise [TypeError], which nothing
    catches. *)
Theorem decoded_value_is_not_validated (key information text : string)
        (s : state) (w : world) :
  generate_content key (raw_data_prompt information) (outside s) = (Ok text, w) ->
  (forall e, json_loads text = LoadsRaised e ->
             convert_to_qa key information s = (Raise e, moved w s)) /\
  (forall v, json_loads text = Loaded v ->
   convert_to_qa key information s = (Ok v, moved w s) /\
   forall (i : nat) (s' : state),
    (truthy v = false ->
     accumulate i v s' = (Ok tt, shown (StWarning (failed_message i)) s')) /\
    (forall items, v = PList items -> items <> [] ->
     accumulate i v s' = (Ok tt, stored (all_qa_pairs s' ++ items) s')) /\
    (forall entries, v = PDict entries -> entries <> [] ->
     accumulate i v s'
     = (Ok tt, stored (all_qa_pairs s' ++ map (fun kv => PStr (fst kv)) entries) s')) /\
    (forall text', v = PStr text' -> text' <> "" ->
     accumulate i v s'
     = (Ok tt, stored (all_qa_pairs s' ++ map PStr (code_points text')) s')) /\
    (truthy v = true ->
     (exists n, v = PInt n) \/ (exists f, v = PFloat f) \/ (exists b, v = PBool b) ->
     accumulate i v s'
     = (Raise (TypeError ("'" +++ type_name v +++ "' object is not iterable")), s'))).
Proof.
  intros Hgen. split.
  - intros e Hjson. apply (convert_to_qa_loads_raised key information text); assumption.
  - intros v Hjson. split.
    + apply (convert_to_qa_decoded key information text); assumption.
    + intros i s'. split; [|split; [|split; [|split]]].
      * apply accumulate_falsy.
      * intros items -> Hne. apply accumulate_items; [|reflexivity].
        simpl. now apply length_nonzero.
      * intros entries -> Hne. apply accumulate_items; [|reflexivity].
        simpl. now apply length_nonzero.
      * intros text' -> Hne. apply accumulate_items; [|reflexivity].
        simpl. apply String.eqb_neq in Hne. now rewrite Hne.
      * intros Ht Hshape. unfold accumulate, extend, bind, lift. rewrite Ht.
        destruct Hshape as [[n ->] | [[f ->] | [b ->]]]; reflexivity.
Qed.

End Accumulate.

Section Loop.
Context {E : Externals}.

(** One pass of the loop on a reply that decodes to a list: its items
    are appended, none if the list is empty. *)
Lemma convert_post_list (key : string) (n i : nat) (bundle text : string)
      (items : list pyval) (s : state) (w : world) :
  generate_content key (raw_data_prompt bundle) (outside s) = (Ok text, w) ->
  json_loads text = Loaded (PList items) ->
  exists s1, convert_post key n i bundle s = (Ok tt, s1) /\
             outside s1 = w /\ all_qa_pairs s1 = all_qa_pairs s ++ items.
Proof.
  intros Hgen Hjson.
  unfold convert_post, bind at 1. simpl. unfold bind at 1.
  rewrite (convert_to_qa_decoded key bundle text (PList items)
             (shown (StSpinner (converting_message i n)) s) w Hgen Hjson).
  unfold bind at 1. destruct items as [|item items].
  - rewrite accumulate_falsy by reflexivity. simpl.
    eexists. split; [reflexivity|]. simpl. now rewrite app_nil_r.
  - rewrite (accumulate_items _ _ (item :: items)) by reflexivity. simpl.
    eexists. split; [reflexivity|]. now simpl.
Qed.

(** One pass of the loop on a reply rejected with [JSONDecodeError]:
    nothing is appended. *)
Lemma convert_post_malformed (key : string) (n i : nat) (bundle text : string)
      (s : state) (w : world) :
  generate_content key (raw_data_prompt bundle) (outside s) = (Ok text, w) ->
  json_loads text = JSONDecodeError ->
  exists s1, convert_post key n i bundle s = (Ok tt, s1) /\
             outside s1 = w /\ all_qa_pairs s1 = all_qa_pairs s.
Proof.
  intros Hgen Hjson.
  unfold convert_post, bind at 1. simpl. unfold bind at 1.
  rewrite (convert_to_qa_malformed key bundle text
             (shown (StSpinner (converting_message i n)) s) w Hgen Hjson).
  unfold bind at 1. rewrite accumulate_falsy by reflexivity. simpl.
  eexists. split; [reflexivity|]. now simpl.
Qed.

(** The loop appends the records of the bundles in the order of the
    bundles, and within a bundle in the order of its reply. *)
Lemma convert_posts_collects (key : string) (n : nat) (bundles : list string)
      (per_thread : list (list pyval)) (w w' : world) :
  transformed key bundles w per_thread w' ->
  forall (i : nat) (s : state), outside s = w ->
  exists s', convert_posts key n i bundles s = (Ok tt, s') /\
             outside s' = w' /\
             all_qa_pairs s' = all_qa_pairs s ++ List.concat per_thread.
Proof.
  induction 1 as [w | bundle rest w w1 w' text items per Hgen Hjson _ IH
                    | bundle rest w w1 w' text per Hgen Hjson _ IH];
    intros i s Hs; simpl.
  - exists s. rewrite app_nil_r. now repeat split.
  - rewrite <- Hs in Hgen.
    destruct (convert_post_list key n i bundle text items s w1 Hgen Hjson)
      as [s1 [Hstep [Hw Hacc]]].
    destruct (IH (S i) s1 Hw) as [s' [Hloop [Hw' Hacc']]].
    exists s'. unfold bind. rewrite Hstep, Hloop.
    repeat split; [exact Hw'|]. now rewrite Hacc', Hacc, app_assoc.
  - rewrite <- Hs in Hgen.
    destruct (convert_post_malformed key n i bundle text s w1 Hgen Hjson)
      as [s1 [Hstep [Hw Hacc]]].
    destruct (IH (S i) s1 Hw) as [s' [Hloop [Hw' Hacc']]].
    exists s'. unfold bind. rewrite Hstep, Hloop.
    repeat split; [exact Hw'|]. now rewrite Hacc', Hacc.
Qed.

End Loop.

(** ** The aggregator *)

Section Aggregator.
Context {E : Externals}.

Lemma flatten_wrapper (xs : list pyval) : flatten [PList xs] = Ok xs.
Proof. simpl. now rewrite app_nil_r. Qed.

Lemma save_to_excel_wrapper (xs : list pyval) (filename : string) (s : state) :
  save_to_excel [PList xs] filename s = aggregate_flat xs filename s.
Proof.
  unfold save_to_excel, aggregate_flat. unfold bind at 1, lift at 1.
  now rewrite flatten_wrapper.
Qed.

(** C7.  Flattening the one-element wrapper around a list gives back
    that list, so the aggregator applied to the wrapper does what the
    aggregator of the specification does on the flat list: the same
    table, the same file write, the same message. *)
Theorem wrapper_flattening_is_identity (xs : list pyval) (filename : string)
        (s : state) :
  flatten [PList xs] = Ok xs /\
  save_to_excel [PList xs] filename s = aggregate_flat xs filename s.
Proof.
  split; [apply flatten_wrapper | apply save_to_excel_wrapper].
Qed.

(** The aggregator when the table is built and the write raises. *)
Lemma save_to_excel_write_fault (xs : list pyval) (filename : string) (df : Frame)
      (e : exception) (s : state) (w : world) :
  DataFrame DataFrame_other xs = Ok df ->
  to_excel df filename (outside s) = (Raise e, w) ->
  save_to_excel [PList xs] filename s = (Raise e, moved w s).
Proof.
  intros Hdf Hwrite.
  rewrite save_to_excel_wrapper.
  unfold aggregate_flat, bind, lift, call. now rewrite Hdf, Hwrite.
Qed.

End Aggregator.

Section Table.
Context {E : Externals}.

(** C4, as amended.  Where the table of the accumulated records is built
    and the write of the spreadsheet file raises, nothing catches the
    exception: the aggregator raises it without returning the table, and
    so does the last step of the driver, before the table is shown, the
    CSV stream is produced or the download is offered.  The page and the
    accumulated records are as they were before the write. *)
Theorem write_fault_ends_the_run (record : pyval) (more : list pyval) (df : Frame)
        (e : exception) (s : state) (w : world) :
  all_qa_pairs s = record :: more ->
  DataFrame DataFrame_other (record :: more) = Ok df ->
  to_excel df reddit_qa_xlsx (outside s) = (Raise e, w) ->
  save_to_excel [PList (record :: more)] reddit_qa_xlsx s = (Raise e, moved w s) /\
  finish s = (Raise e, moved w s) /\
  ui (moved w s) = ui s /\
  all_qa_pairs (moved w s) = record :: more.
Proof.
  intros Hacc Hdf Hwrite.
  assert (Hsave : save_to_excel [PList (record :: more)] reddit_qa_xlsx s
                  = (Raise e, moved w s))
    by (apply (save_to_excel_write_fault _ _ df); assumption).
  repeat split; [exact Hsave | | exact Hacc].
  unfold finish, bind at 1, get_all_qa_pairs. rewrite Hacc.
  unfold bind at 1. now rewrite Hsave.
Qed.

(** The two orders of the columns. *)
Lemma carried_keys (v : pyval) (r : QARecord) (labels : list string) :
  carries v r ->
  labels = ["question"; "answer"] \/ labels = ["answer"; "question"] ->
  is_record v = true /\
  match v with PDict entries => add_keys labels entries | _ => labels end = labels /\
  record_row labels v = map (qa_cell r) labels.
Proof.
  intros [-> | ->] [-> | ->]; repeat split.
Qed.

Lemma carried_first (v : pyval) (r : QARecord) :
  carries v r ->
  exists labels,
    (labels = ["question"; "answer"] \/ labels = ["answer"; "question"]) /\
    match v with PDict entries => add_keys [] entries | _ => [] end = labels.
Proof.
  intros [-> | ->]; eexists; (split; [|reflexivity]); auto.
Qed.

Lemma carried_rest (flat : list pyval) (records : list QARecord) (labels : list string) :
  Forall2 carries flat records ->
  labels = ["question"; "answer"] \/ labels = ["answer"; "question"] ->
  forallb is_record flat = true /\
  fold_left (fun seen v => match v with
                           | PDict entries => add_keys seen entries
                           | _ => seen
                           end) flat labels = labels /\
  map (record_row labels) flat = map (fun r => map (qa_cell r) labels) records.
Proof.
  intros H Hl. induction H as [|v r flat records Hv _ IH]; simpl.
  - now repeat split.
  - destruct (carried_keys v r labels Hv Hl) as [Hd [Hk Hr]].
    destruct IH as [Hds [Hks Hrs]].
    rewrite Hd, Hk, Hks, Hr, Hrs. now repeat split.
Qed.

(** The table of a non-empty sequence of records. *)
Lemma DataFrame_of_records (other : list pyval -> Res Frame)
      (flat : list pyval) (records : list QARecord) :
  Forall2 carries flat records -> records <> [] ->
  exists labels,
    Permutation labels ["question"; "answer"] /\
    DataFrame other flat = Ok (qa_table labels records).
Proof.
  intros H Hne. destruct H as [|v r flat records Hv Hrest]; [congruence|].
  destruct (carried_first v r Hv) as [labels [Hl Hfirst]].
  destruct (carried_keys v r labels Hv Hl) as [Hd [_ Hr]].
  destruct (carried_rest flat records labels Hrest Hl) as [Hds [Hks Hrs]].
  exists labels. split.
  - destruct Hl as [-> | ->]; [reflexivity | apply perm_swap].
  - unfold DataFrame, record_columns. simpl.
    rewrite Hd, Hds, Hfirst, Hks. simpl. unfold qa_table. simpl.
    now rewrite Hr, Hrs.
Qed.

(** C6.  Let the replies to the bundles decode to lists (or be
    malformed), and let the records collected from them, in order, carry
    a non-empty sequence of QA records.  Then the loop leaves exactly
    these records, thread after thread and in the order of each reply;
    the table of the aggregator has the two columns [question] and
    [answer] and one row per record, in that order, as many rows as the
    replies have records in total; and where the file is written the
    aggregator returns that table. *)
Theorem table_keeps_count_and_order (key : string) (n i : nat)
        (bundles : list string) (per_thread : list (list pyval))
        (records : list QARecord) (s : state) (w' : world) :
  all_qa_pairs s = [] ->
  transformed key bundles (outside s) per_thread w' ->
  Forall2 carries (List.concat per_thread) records ->
  records <> [] ->
  exists (s' : state) (labels : list string),
    convert_posts key n i bundles s = (Ok tt, s') /\
    outside s' = w' /\
    all_qa_pairs s' = List.concat per_thread /\
    Permutation labels ["question"; "answer"] /\
    columns (qa_table labels records) = map PStr labels /\
    rows (qa_table labels records) = map (fun r => map (qa_cell r) labels) records /\
    List.length (rows (qa_table labels records))
    = list_sum (map (@List.length pyval) per_thread) /\
    forall w'',
      to_excel (qa_table labels records) reddit_qa_xlsx w' = (Ok tt, w'') ->
      save_to_excel [PList (all_qa_pairs s')] reddit_qa_xlsx s'
      = (Ok (qa_table labels records),
         shown (StSuccess ("Data saved to " +++ reddit_qa_xlsx)) (moved w'' s')).
Proof.
  intros Hempty Hrun Hcarry Hne.
  destruct (convert_posts_collects key n bundles per_thread _ w' Hrun i s eq_refl)
    as [s' [Hloop [Hw Hacc]]].
  rewrite Hempty in Hacc. simpl in Hacc.
  destruct (DataFrame_of_records DataFrame_other _ records Hcarry Hne)
    as [labels [Hperm Hdf]].
  exists s', labels. repeat split; try assumption.
  - unfold qa_table. simpl. rewrite length_map.
    rewrite <- (Forall2_length Hcarry). apply length_concat.
  - intros w'' Hwrite. rewrite save_to_excel_wrapper, Hacc.
    unfold aggregate_flat, bind, lift, call. rewrite Hdf, Hw, Hwrite. reflexivity.
Qed.

End Table.

(** ** Ground runs in the scripted world *)

Lemma empty_result_is_reported_as_failure_witness :
  exists warned : @state (scripted documents),
    convert_post "key" 3 1 "bundle B" (after_first second_empty)
    = (Ok tt, shown (StProgress 2 3) warned) /\
    all_qa_pairs warned = map qa_record thread_a.
Proof.
  eexists. split.
  - exact (proj1 (proj2 (proj2 (proj2
      (empty_result_is_reported_as_failure (E := scripted documents)
         "key" 3 1 "bundle B" "[]" (after_first second_empty)
         (after_second_call second_empty) eq_refl eq_refl))))).
  - reflexivity.
Defined.

Lemma decoded_value_is_not_validated_witness :
  convert_to_qa "key" "bundle A" (start strings_reply)
  = (Ok (PList [PStr "a"; PStr "b"]),
     moved (E := scripted documents)
           (snd (scripted_reply strings_reply)) (start strings_reply)) /\
  accumulate 0 (PList [PStr "a"; PStr "b"]) (start strings_reply)
  = (Ok tt, stored [PStr "a"; PStr "b"] (start strings_reply)) /\
  accumulate 0 (PInt 5) (start number_reply)
  = (Raise (TypeError "'int' object is not iterable"), start number_reply) /\
  accumulate 0 (PStr nihon) (start nihon_reply)
  = (Ok tt, stored [PStr nichi; PStr hon] (start nihon_reply)) /\
  convert_to_qa "key" "bundle A" (start long_integer_reply)
  = (Raise digit_limit_error,
     moved (E := scripted documents)
           (snd (scripted_reply long_integer_reply)) (start long_integer_reply)).
Proof.
  pose proof (proj2 (decoded_value_is_not_validated (E := scripted documents)
                       "key" "bundle A" strings_document
                       (start strings_reply) (snd (scripted_reply strings_reply))
                       eq_refl)
                    (PList [PStr "a"; PStr "b"]) eq_refl) as [Hqa Hacc].
  split; [exact Hqa|]. split; [|split; [|split]].
  - apply (proj1 (proj2 (Hacc 0%nat (start strings_reply))) [PStr "a"; PStr "b"]).
    + reflexivity.
    + discriminate.
  - pose proof (proj2 (decoded_value_is_not_validated (E := scripted documents)
                         "key" "bundle A" "5"
                         (start number_reply) (snd (scripted_reply number_reply))
                         eq_refl)
                      (PInt 5) eq_refl) as [_ Hnum].
    apply (proj2 (proj2 (proj2 (proj2 (Hnum 0%nat (start number_reply)))))).
    + reflexivity.
    + left. exists 5%Z. reflexivity.
  - pose proof (proj2 (decoded_value_is_not_validated (E := scripted documents)
                         "key" "bundle A" (quoted nihon)
                         (start nihon_reply) (snd (scripted_reply nihon_reply))
                         eq_refl)
                      (PStr nihon) eq_refl) as [_ Hstr].
    apply (proj1 (proj2 (proj2 (proj2 (Hstr 0%nat (start nihon_reply))))) nihon).
    + reflexivity.
    + discriminate.
  - apply (proj1 (decoded_value_is_not_validated (E := scripted documents)
                    "key" "bundle A" long_integer
                    (start long_integer_reply)
                    (snd (scripted_reply long_integer_reply)) eq_refl)
                 digit_limit_error).
    vm_compute. reflexivity.
Defined.

(** The reply [5] is well-formed and decodes to the number 5; the run
    ends with [TypeError] at the first bundle, before any call of the
    aggregator: no file is written and nothing is collected. *)
Lemma number_reply_never_reaches_aggregator :
  json_loads (Externals := scripted documents) "5" = Loaded (PInt 5) /\
  convert_to_qa "key" "bundle A" (start number_reply)
  = (Ok (PInt 5), moved (E := scripted documents)
                    (snd (scripted_reply number_reply)) (start number_reply)) /\
  exists final : @state (scripted documents),
    main the_inputs (start number_reply)
    = (Raise (TypeError "'int' object is not iterable"), final) /\
    files (outside final) = [] /\
    all_qa_pairs final = [].
Proof.
  split; [reflexivity|]. split; [reflexivity|].
  exists (snd (main the_inputs (start number_reply))).
  split; [vm_compute; reflexivity|]. split; reflexivity.
Qed.

(** An object is true and iterable: the run collects its two keys, not
    the object, and the aggregator builds a one-column table of them. *)
Example object_reply_adds_its_keys :
  exists final : @state (scripted documents),
    main the_inputs (start object_reply) = (Ok tt, final) /\
    all_qa_pairs final = [PStr "question"; PStr "answer"] /\
    files (outside final)
    = [(reddit_qa_xlsx,
        {| columns := [PInt 0]; rows := [[PStr "question"]; [PStr "answer"]] |})].
Proof.
  exists (snd (main the_inputs (start object_reply))).
  split; [vm_compute; reflexivity|]. split; vm_compute; reflexivity.
Qed.

(** A list of strings is collected and reaches the aggregator, which
    builds the one-column table of it. *)
Example strings_reply_reaches_aggregator :
  exists final : @state (scripted documents),
    main the_inputs (start strings_reply) = (Ok tt, final) /\
    files (outside final)
    = [(reddit_qa_xlsx,
        {| columns := [PInt 0]; rows := [[PStr "a"]; [PStr "b"]] |})].
Proof.
  exists (snd (main the_inputs (start strings_reply))).
  split; vm_compute; reflexivity.
Qed.

Lemma write_fault_ends_the_run_witness :
  finish (after_loop write_refused) = (Raise permission_denied, after_loop write_refused).
Proof.
  exact (proj1 (proj2
    (write_fault_ends_the_run (E := scripted documents)
       (qa_record ("Q1", "A1"))
       (map qa_record [("Q2", "A2"); ("Q3", "A3"); ("Q4", "A4")])
       (qa_table ["question"; "answer"] (map qa_typed (thread_a ++ thread_c)))
       permission_denied (after_loop write_refused)
       (outside (after_loop write_refused)) eq_refl eq_refl eq_refl))).
Defined.

(** The file cannot be written: the run ends with the exception of the
    write, and the page shows neither the table nor the download
    button; no CSV stream was produced. *)
Lemma refused_write_offers_no_download :
  exists final : @state (scripted documents),
    main the_inputs (start write_refused) = (Raise permission_denied, final) /\
    (forall df, ~ In (StDataframe df) (ui final)) /\
    (forall label data file_name mime,
       ~ In (StDownloadButton label data file_name mime) (ui final)) /\
    List.length (all_qa_pairs final) = 4%nat.
Proof.
  exists (snd (main the_inputs (start write_refused))).
  split; [vm_compute; reflexivity|]. vm_compute.
  repeat split; intros; intuition discriminate.
Qed.

(** The same replies with a writable disk: the table of four rows is
    written and shown, and the download is offered; one warning is
    shown, for the second thread. *)
Example run_with_one_malformed_reply :
  exists final : @state (scripted documents),
    main the_inputs (start second_malformed) = (Ok tt, final) /\
    files (outside final)
    = [(reddit_qa_xlsx,
        qa_table ["question"; "answer"] (map qa_typed (thread_a ++ thread_c)))] /\
    filter (fun ev => match ev with StWarning _ => true | _ => false end) (ui final)
    = [StWarning "Failed to convert post 2 to Q&A format."] /\
    In (StDownloadButton "Download data as CSV"
          ("question,answer" +++ nl +++ "Q1,A1" +++ nl +++ "Q2,A2" +++ nl
             +++ "Q3,A3" +++ nl +++ "Q4,A4" +++ nl)
          "reddit_qa.csv" "text/csv") (ui final).
Proof.
  exists (snd (main the_inputs (start second_malformed))).
  split; [vm_compute; reflexivity|]. split; [vm_compute; reflexivity|].
  split; [vm_compute; reflexivity|]. vm_compute. tauto.
Qed.

(** The model is unavailable at the second bundle: [main] ends with the
    exception, holding the three records of the first thread. *)
Example run_with_model_fault :
  exists final : @state (scripted documents),
    main the_inputs (start second_unavailable) = (Raise unavailable, final) /\
    all_qa_pairs final = map qa_record thread_a /\
    files (outside final) = [].
Proof.
  exists (snd (main the_inputs (start second_unavailable))).
  split; [vm_compute; reflexivity|]. split; vm_compute; reflexivity.
Qed.

Lemma transformed_second_malformed :
  transformed (E := scripted documents) "key" three_bundles second_malformed
              [map qa_record thread_a; []; map qa_record thread_c]
              (outside (after_loop second_malformed)).
Proof.
  eapply transformed_list; [reflexivity | reflexivity |].
  eapply transformed_malformed; [reflexivity | reflexivity |].
  eapply transformed_list; [reflexivity | reflexivity |].
  apply transformed_none.
Defined.

Lemma table_keeps_count_and_order_witness :
  exists (s' : @state (scripted documents)) (labels : list string),
    convert_posts "key" 3 0 three_bundles (start second_malformed) = (Ok tt, s') /\
    all_qa_pairs s' = map qa_record (thread_a ++ thread_c) /\
    List.length (rows (qa_table labels (map qa_typed (thread_a ++ thread_c)))) = 4%nat.
Proof.
  destruct (table_keeps_count_and_order (E := scripted documents)
              "key" 3 0 three_bundles
              [map qa_record thread_a; []; map qa_record thread_c]
              (map qa_typed (thread_a ++ thread_c))
              (start second_malformed) (outside (after_loop second_malformed))
              eq_refl transformed_second_malformed)
    as [s' [labels [Hloop [_ [Hacc [_ [_ [_ [Hlen _]]]]]]]]].
  - repeat (constructor; [left; reflexivity|]). constructor.
  - discriminate.
  - exists s', labels. split; [exact Hloop|]. split; [exact Hacc | exact Hlen].
Defined.

(** * Further properties of the program *)

(** ** The fetcher's ranking and rendering *)

Section Descending.
Context {A : Type} (key : A -> Z).

Lemma insert_desc_descending (x : A) (l : list A) :
  StronglySorted (fun a b => (key b <= key a)%Z) l ->
  StronglySorted (fun a b => (key b <= key a)%Z) (insert_desc key x l).
Proof.
  induction 1 as [|y l Hl IH Hy]; simpl.
  - constructor; constructor.
  - destruct (Z.ltb_spec (key x) (key y)) as [Hlt|Hge].
    + constructor; [exact IH|].
      eapply Permutation_Forall; [symmetry; apply insert_desc_perm|].
      constructor; [lia | exact Hy].
    + constructor; [constructor; assumption|].
      constructor; [exact Hge|].
      eapply Forall_impl; [|exact Hy]. simpl. intros z Hz. lia.
Qed.

Lemma sort_reverse_descending (l : list A) :
  StronglySorted (fun a b => (key b <= key a)%Z) (sort_reverse key l).
Proof.
  induction l as [|x l IH]; simpl; [constructor|].
  now apply insert_desc_descending.
Qed.

End Descending.

Lemma StronglySorted_app_cross {A : Type} (R : A -> A -> Prop) (l1 l2 : list A) :
  StronglySorted R (l1 ++ l2) -> Forall (fun a => Forall (R a) l2) l1.
Proof.
  induction l1 as [|a l1 IH]; simpl; intros H; constructor.
  - apply StronglySorted_inv in H as [_ H]. apply Forall_app in H. tauto.
  - apply IH. now apply StronglySorted_inv in H.
Qed.

(** X1.  The fetcher keeps exactly [min(10, n)] of the [n] comments
    retrieved; together with the ones it drops they are the retrieved
    comments, none lost, none repeated; and no dropped comment has a
    higher score than a kept one. *)
Theorem top_comments_keeps_the_best (comments : list comment) :
  List.length (top_comments comments) = Nat.min 10 (List.length comments) /\
  exists dropped : list comment,
    Permutation (top_comments comments ++ dropped) comments /\
    Forall (fun k => Forall (fun d => (score d <= score k)%Z) dropped)
           (top_comments comments).
Proof.
  unfold top_comments.
  set (sorted := sort_reverse score comments).
  set (k := Nat.min 10 (List.length sorted)).
  split.
  - rewrite length_firstn. unfold k, sorted. rewrite sort_reverse_length. lia.
  - exists (skipn k sorted). split.
    + rewrite firstn_skipn. apply sort_reverse_perm.
    + apply (StronglySorted_app_cross (fun a b => (score b <= score a)%Z)).
      rewrite firstn_skipn. apply sort_reverse_descending.
Qed.

Lemma enumerate_app {A : Type} (l1 l2 : list A) (start : nat) :
  enumerate start (l1 ++ l2)
  = enumerate start l1 ++ enumerate (start + List.length l1) l2.
Proof.
  revert start. induction l1 as [|a l1 IH]; intros start; simpl.
  - now rewrite Nat.add_0_r.
  - rewrite IH. now replace (S start + List.length l1)%nat
                      with (start + S (List.length l1))%nat by lia.
Qed.

(** X2.  A bundle without comments is the title line and the body line;
    each further kept comment adds one line at the end, numbered with its
    position counted from 1. *)
Theorem format_post_numbers_comments (post : Submission) (kept : list comment)
        (c : comment) :
  format_post post []
  = "Title: " +++ title post +++ nl +++ "Post: " +++ body_or_marker post +++ nl
  /\
  format_post post (kept ++ [c])
  = format_post post kept
      +++ "Comment " +++ str_of_nat (List.length kept + 1) +++ ": " +++ body c +++ nl.
Proof.
  split.
  - unfold format_post. simpl. now rewrite !append_assoc.
  - unfold format_post. rewrite enumerate_app, fold_left_app. simpl.
    unfold comment_line at 2. simpl.
    replace (List.length kept + 1)%nat with (S (List.length kept)) by lia.
    reflexivity.
Qed.

(** ** The fetcher and the page *)

Section FetcherPage.
Context {E : Externals}.

(** The loop of the fetcher shows nothing and leaves the collection
    alone, whether it ends or raises. *)
Lemma fetch_posts_silent (top_posts : list Submission) (acc : list string)
      (s s' : state) (r : Res (list string)) :
  fetch_posts top_posts acc s = (r, s') ->
  ui s' = ui s /\ all_qa_pairs s' = all_qa_pairs s.
Proof.
  revert acc s. induction top_posts as [|post rest IH]; intros acc s; simpl.
  - unfold ret. intros [= _ <-]. now split.
  - unfold bind, call. destruct (comments_list post (outside s)) as [[comments|e] w].
    + intros H. apply IH in H. exact H.
    + intros [= _ <-]. now split.
Qed.

(** What the loop of the fetcher has done when it ends: it has fetched
    the comments of each thread, in order, and added the bundle of each
    thread and of the comments fetched for it. *)
Lemma fetch_posts_fetches (top_posts : list Submission) (acc out : list string)
      (s s' : state) :
  fetch_posts top_posts acc s = (Ok out, s') ->
  exists retrieved : list (list comment),
    comments_fetched top_posts (outside s) retrieved (outside s') /\
    List.length retrieved = List.length top_posts /\
    out = acc ++ map bundle_of (combine top_posts retrieved).
Proof.
  revert acc s. induction top_posts as [|post rest IH]; intros acc s; simpl.
  - unfold ret. intros [= <- <-]. exists []. rewrite app_nil_r.
    repeat split. constructor.
  - unfold bind, call.
    destruct (comments_list post (outside s)) as [[comments|e] w] eqn:Hc;
      [|discriminate].
    intros H. apply IH in H as [retrieved [Hf [Hlen ->]]].
    exists (comments :: retrieved). simpl. split; [|split].
    + econstructor; [exact Hc | exact Hf].
    + now rewrite Hlen.
    + now rewrite <- app_assoc.
Qed.

(** Where the loop of the fetcher raises: at the fetch of the comments
    of one thread, after the loop over the threads before it ended. *)
Lemma fetch_posts_raises (top_posts : list Submission) (acc : list string)
      (s s' : state) (e : exception) :
  fetch_posts top_posts acc s = (Raise e, s') ->
  exists (before after : list Submission) (post : Submission)
         (out : list string) (s1 : state) (w1 : world),
    top_posts = before ++ post :: after /\
    fetch_posts before acc s = (Ok out, s1) /\
    comments_list post (outside s1) = (Raise e, w1) /\
    s' = moved w1 s1.
Proof.
  revert acc s. induction top_posts as [|post rest IH]; intros acc s; simpl.
  - unfold ret. discriminate.
  - unfold bind, call.
    destruct (comments_list post (outside s)) as [[comments|e'] w] eqn:Hc.
    + intros H. apply IH in H
        as [before [after [post' [out [s1 [w1 [-> [Hb [Hp ->]]]]]]]]].
      exists (post :: before), after, post', out, s1, w1.
      repeat split; [|exact Hp]. simpl. unfold bind, call. now rewrite Hc.
    + intros [= <- <-]. exists [], rest, post, acc, s, w. now repeat split.
Qed.

(** X3.  A list returned by the fetcher has, in the order of the
    platform's listing, one bundle per listed thread; the comments of
    the threads were fetched one thread after the other, in that order,
    and each bundle is rendered from its thread and from the comments
    that fetch returned for it; and a fetch that succeeds shows nothing
    on the page. *)
Theorem fetcher_renders_each_thread (id secret agent name : string) (limit : Z)
        (bundles : list string) (s s' : state) :
  get_trending_posts_with_comments id secret agent name limit s
  = (Ok (Some bundles), s') ->
  exists (top_posts : list Submission) (w : world) (retrieved : list (list comment)),
    subreddit_top id secret agent name limit (outside s) = (Ok top_posts, w) /\
    comments_fetched top_posts w retrieved (outside s') /\
    List.length retrieved = List.length top_posts /\
    bundles = map bundle_of (combine top_posts retrieved) /\
    ui s' = ui s.
Proof.
  unfold get_trending_posts_with_comments, try_except, bind, call.
  destruct (subreddit_top id secret agent name limit (outside s))
    as [[top_posts|e] w].
  - destruct (fetch_posts top_posts [] (moved w s)) as [[out|e] s1] eqn:Hloop.
    + unfold ret. intros [= <- <-].
      destruct (fetch_posts_silent _ _ _ _ _ Hloop) as [Hui _].
      apply fetch_posts_fetches in Hloop as [retrieved [Hf [Hlen ->]]].
      exists top_posts, w, retrieved. now repeat split.
    + unfold emit, ret. discriminate.
  - unfold emit, ret. discriminate.
Qed.

(** X4.  The fetcher never raises, whatever the platform does.  It
    returns a list and shows nothing; or a fault of the fetch stage
    occurred, in the listing or at the comments of a thread, and the
    fetcher returns [None] after showing exactly one error: the message
    that the [except] clauses give for the exception of that fault.  It
    does not touch the collection of the driver. *)
Theorem fetcher_never_raises (id secret agent name : string) (limit : Z) (s : state) :
  exists (r : option (list string)) (s' : state),
    get_trending_posts_with_comments id secret agent name limit s = (Ok r, s') /\
    all_qa_pairs s' = all_qa_pairs s /\
    match r with
    | Some _ => ui s' = ui s
    | None =>
        exists (e : exception) (s1 : state),
          fetch_fault id secret agent name limit s e s1 /\
          s' = shown (StError (except_message e)) s1 /\
          ui s' = ui s ++ [StError (except_message e)]
    end.
Proof.
  unfold get_trending_posts_with_comments, try_except, bind, call.
  destruct (subreddit_top id secret agent name limit (outside s))
    as [[top_posts|e] w] eqn:Hlist.
  - destruct (fetch_posts top_posts [] (moved w s)) as [[out|e] s1] eqn:Hloop.
    + destruct (fetch_posts_silent _ _ _ _ _ Hloop) as [Hui Hacc]. simpl in *.
      exists (Some out), s1. now repeat split.
    + destruct (fetch_posts_silent _ _ _ _ _ Hloop) as [Hui Hacc]. simpl in *.
      apply fetch_posts_raises in Hloop
        as [before [after [post [bs [s0 [w1 [-> [Hb [Hp ->]]]]]]]]].
      eexists None, _. split; [reflexivity|]. simpl.
      split; [exact Hacc|]. exists e, (moved w1 s0). split; [|split].
      * now apply (fault_in_comments id secret agent name limit s e w w1 s0
                     before after post bs).
      * reflexivity.
      * simpl. simpl in Hui. now rewrite Hui.
  - eexists None, _. split; [reflexivity|]. simpl.
    split; [reflexivity|]. exists e, (moved w s). split; [|split].
    + now apply fault_in_listing.
    + reflexivity.
    + reflexivity.
Qed.

End FetcherPage.

Lemma fetcher_renders_each_thread_witness :
  exists (top_posts : list Submission) (w : Script) (retrieved : list (list comment)),
    subreddit_top (Externals := scripted documents)
                  "id" "secret" "agent" "python" 10 both_threads_arrive
    = (Ok top_posts, w) /\
    comments_fetched (E := scripted documents) top_posts w retrieved
      {| listing := Ok [thread "A"; thread "B"]; threads := [];
         replies := []; disk_writable := true; files := [] |} /\
    List.length retrieved = List.length top_posts /\
    [format_post (thread "A") [ {| score := 1; body := "c" |} ];
     format_post (thread "B") []]
    = map bundle_of (combine top_posts retrieved) /\
    @nil ui_event = [].
Proof.
  exact (fetcher_renders_each_thread (E := scripted documents)
           "id" "secret" "agent" "python" 10
           [format_post (thread "A") [ {| score := 1; body := "c" |} ];
            format_post (thread "B") []]
           (start both_threads_arrive)
           (start {| listing := Ok [thread "A"; thread "B"]; threads := [];
                     replies := []; disk_writable := true; files := [] |})
           eq_refl).
Defined.

(** ** One pass of the driver's loop, whatever the world does *)

Section Pass.
Context {E : Externals}.

(** A true value that can be iterated has at least one item. *)
Lemma truthy_iter_nonempty (v : pyval) (items : list pyval) :
  truthy v = true -> iter v = Ok items -> items <> [].
Proof.
  destruct v as [| b | n | f | t | l | d]; simpl; try discriminate.
  - destruct t as [|c t]; [discriminate|]. intros _ [= <-].
    pose proof (code_points_nonempty c t) as Hne.
    destruct (code_points (String c t)); [congruence | discriminate].
  - destruct l; [discriminate|]. intros _ [= <-]. discriminate.
  - destruct d; [discriminate|]. intros _ [= <-]. discriminate.
Qed.

(** The transformer leaves the collection alone and shows at most the
    parse error, in which case it returns [None]. *)
Lemma convert_to_qa_cases (key information : string) (s s' : state) (r : Res pyval) :
  convert_to_qa key information s = (r, s') ->
  all_qa_pairs s' = all_qa_pairs s /\
  (ui s' = ui s \/
   (ui s' = ui s ++ [StError parse_error_message] /\ r = Ok PNone)).
Proof.
  unfold convert_to_qa, bind, call.
  destruct (generate_content key (raw_data_prompt information) (outside s))
    as [[text|e] w].
  - destruct (json_loads text) as [v| |e].
    + unfold ret. intros [= <- <-]. split; [reflexivity | now left].
    + unfold emit, ret. simpl. intros [= <- <-]. split; [reflexivity | now right].
    + unfold lift. intros [= <- <-]. split; [reflexivity | now left].
  - intros [= <- <-]. split; [reflexivity | now left].
Qed.

(** What the driver does with a result: it adds at least one record and
    shows nothing, or it adds nothing and shows the warning, or [extend]
    raises and nothing changes. *)
Lemma accumulate_cases (i : nat) (v : pyval) (s s' : state) (r : Res unit) :
  accumulate i v s = (r, s') ->
  (r = Ok tt /\ ui s' = ui s /\ outside s' = outside s /\
   exists item items, all_qa_pairs s' = all_qa_pairs s ++ item :: items) \/
  (r = Ok tt /\ s' = shown (StWarning (failed_message i)) s /\ truthy v = false) \/
  (exists e, r = Raise e /\ s' = s).
Proof.
  unfold accumulate. destruct (truthy v) eqn:Ht.
  - unfold extend, bind, lift. destruct (iter v) as [items|e] eqn:Hit.
    + simpl. intros [= <- <-]. left. repeat split.
      pose proof (truthy_iter_nonempty v items Ht Hit) as Hne.
      destruct items as [|item items]; [congruence|]. now exists item, items.
    + intros [= <- <-]. right. right. now exists e.
  - unfold emit. intros [= <- <-]. right. left. now repeat split.
Qed.

(** The three ways a pass of the loop ends, with what it shows. *)
Lemma convert_post_cases (key : string) (n i : nat) (bundle : string)
      (s s' : state) (r : Res unit) :
  convert_post key n i bundle s = (r, s') ->
  exists pre : list ui_event,
    (pre = [] \/ pre = [StError parse_error_message]) /\
    ((r = Ok tt /\
      (exists item items, all_qa_pairs s' = all_qa_pairs s ++ item :: items) /\
      ui s' = ui s ++ [StSpinner (converting_message i n)] ++ pre
                   ++ [StProgress (i + 1) n]) \/
     (r = Ok tt /\ all_qa_pairs s' = all_qa_pairs s /\
      ui s' = ui s ++ [StSpinner (converting_message i n)] ++ pre
                   ++ [StWarning (failed_message i); StProgress (i + 1) n]) \/
     (exists e, r = Raise e /\ all_qa_pairs s' = all_qa_pairs s /\
      ui s' = ui s ++ [StSpinner (converting_message i n)] ++ pre)).
Proof.
  intros Hrun. unfold convert_post, bind at 1 in Hrun. simpl in Hrun.
  unfold bind at 1 in Hrun.
  destruct (convert_to_qa key bundle (shown (StSpinner (converting_message i n)) s))
    as [[v|e] s1] eqn:Hqa.
  - apply convert_to_qa_cases in Hqa as [Hacc1 Hui1]. simpl in Hacc1, Hui1.
    assert (Hpre : exists pre, (pre = [] \/ pre = [StError parse_error_message]) /\
                     ui s1 = ui s ++ [StSpinner (converting_message i n)] ++ pre).
    { destruct Hui1 as [Hu | [Hu _]].
      - exists []. split; [now left|]. now rewrite Hu.
      - exists [StError parse_error_message]. split; [now right|].
        now rewrite Hu, <- app_assoc. }
    destruct Hpre as [pre [Hshape Hui]]. exists pre. split; [exact Hshape|].
    unfold bind at 1 in Hrun.
    destruct (accumulate i v s1) as [[[]|e] s2] eqn:Hac.
    + unfold emit in Hrun. injection Hrun as <- <-.
      apply accumulate_cases in Hac
        as [[_ [Hu2 [_ [item [items Ha2]]]]] | [[_ [-> _]] | [e [He _]]]];
        try discriminate.
      * left. repeat split.
        -- exists item, items. simpl. now rewrite Ha2, Hacc1.
        -- simpl. rewrite Hu2, Hui. now rewrite <- !app_assoc.
      * right. left. repeat split.
        -- exact Hacc1.
        -- simpl. rewrite Hui. now rewrite <- !app_assoc.
    + injection Hrun as <- <-.
      apply accumulate_cases in Hac
        as [[Hr _] | [[Hr _] | [e' [He ->]]]]; try discriminate.
      right. right. exists e. now repeat split.
  - injection Hrun as <- <-.
    apply convert_to_qa_cases in Hqa as [Hacc1 Hui1]. simpl in Hacc1, Hui1.
    exists []. split; [now left|]. right. right.
    exists e. repeat split; [exact Hacc1|].
    destruct Hui1 as [Hu | [_ Hr]]; [|discriminate].
    now rewrite app_nil_r.
Qed.

End Pass.

Section LoopInvariants.
Context {E : Externals}.

(** X5.  For each thread whose pass ends, the operator is warned exactly
    when the thread contributed no record: the pass either adds at least
    one record and shows no warning, or adds none and shows the one
    warning of that thread. *)
Theorem warned_iff_nothing_added (key : string) (n i : nat) (bundle : string)
        (s s' : state) :
  convert_post key n i bundle s = (Ok tt, s') ->
  ((exists item items, all_qa_pairs s' = all_qa_pairs s ++ item :: items) /\
   filter is_warning (ui s') = filter is_warning (ui s)) \/
  (all_qa_pairs s' = all_qa_pairs s /\
   filter is_warning (ui s')
   = filter is_warning (ui s) ++ [StWarning (failed_message i)]).
Proof.
  intros H. apply convert_post_cases in H as [pre [Hpre H]].
  destruct H as [[_ [Hadd Hui]] | [[_ [Hacc Hui]] | [e [He _]]]]; [| |discriminate].
  - left. split; [exact Hadd|]. rewrite Hui, !filter_app.
    destruct Hpre as [-> | ->]; simpl; now rewrite app_nil_r.
  - right. split; [exact Hacc|]. rewrite Hui, !filter_app.
    destruct Hpre as [-> | ->]; reflexivity.
Qed.

(** X6.  Whatever the world does and however the loop ends, by its end
    or by an exception, the records collected before are still at the
    front of the collection, in their order, and what the page showed
    is still shown: the loop only appends. *)
Theorem loop_only_appends (key : string) (n i : nat) (bundles : list string)
        (s s' : state) (r : Res unit) :
  convert_posts key n i bundles s = (r, s') ->
  exists (added : list pyval) (events : list ui_event),
    all_qa_pairs s' = all_qa_pairs s ++ added /\
    ui s' = ui s ++ events.
Proof.
  revert i s. induction bundles as [|bundle rest IH]; intros i s; simpl.
  - unfold ret. intros [= _ <-]. exists [], []. now rewrite !app_nil_r.
  - unfold bind.
    destruct (convert_post key n i bundle s) as [[[]|e] s1] eqn:Hpass.
    + intros Hrest. apply IH in Hrest as [added [events [Ha Hu]]].
      apply convert_post_cases in Hpass as [pre [_ Hpass]].
      destruct Hpass as [[_ [[item [items Ha1]] Hu1]]
                        | [[_ [Ha1 Hu1]] | [e [He _]]]]; [| |discriminate].
      * eexists _, _. rewrite Ha, Ha1, Hu, Hu1, <- !app_assoc. split; reflexivity.
      * exists added. eexists. rewrite Ha, Ha1, Hu, Hu1, <- !app_assoc.
        split; reflexivity.
    + intros [= <- <-].
      apply convert_post_cases in Hpass as [pre [_ Hpass]].
      destruct Hpass as [[Hr _] | [[Hr _] | [e' [_ [Ha1 Hu1]]]]]; try discriminate.
      exists []. eexists. rewrite app_nil_r. split; [exact Ha1 | exact Hu1].
Qed.

(** X7.  A loop that ends has updated the progress indicator once per
    bundle, in order, with the fractions [(i+1)/n], ..., up to the last
    bundle. *)
Theorem progress_once_per_bundle (key : string) (n i : nat) (bundles : list string)
        (s s' : state) :
  convert_posts key n i bundles s = (Ok tt, s') ->
  filter is_progress (ui s')
  = filter is_progress (ui s)
      ++ map (fun k => StProgress (k + 1) n) (seq i (List.length bundles)).
Proof.
  revert i s. induction bundles as [|bundle rest IH]; intros i s; simpl.
  - unfold ret. intros [= <-]. now rewrite app_nil_r.
  - unfold bind.
    destruct (convert_post key n i bundle s) as [[[]|e] s1] eqn:Hpass;
      [|discriminate].
    intros Hrest. apply IH in Hrest. rewrite Hrest.
    apply convert_post_cases in Hpass as [pre [Hpre Hpass]].
    assert (Hstep : filter is_progress (ui s1)
                    = filter is_progress (ui s) ++ [StProgress (i + 1) n]).
    { destruct Hpass as [[_ [_ Hu]] | [[_ [_ Hu]] | [e [He _]]]];
        [| |discriminate]; rewrite Hu, !filter_app;
        destruct Hpre as [-> | ->]; reflexivity. }
    rewrite Hstep, <- app_assoc. reflexivity.
Qed.

End LoopInvariants.

Lemma warned_iff_nothing_added_witness :
  all_qa_pairs (after_first second_malformed) = map qa_record thread_a /\
  filter is_warning
    (ui (snd (convert_post (E := scripted documents) "key" 3 1 "bundle B"
                           (after_first second_malformed))))
  = [StWarning (failed_message 1)].
Proof.
  split; [reflexivity|].
  destruct (warned_iff_nothing_added (E := scripted documents)
              "key" 3 1 "bundle B" (after_first second_malformed)
              (snd (convert_post (E := scripted documents) "key" 3 1 "bundle B"
                                 (after_first second_malformed)))
              eq_refl) as [[[item [items Hadd]] _] | [_ Hwarn]].
  - vm_compute in Hadd. discriminate.
  - exact Hwarn.
Defined.

Lemma progress_once_per_bundle_witness :
  filter is_progress (ui (after_loop second_malformed))
  = [StProgress 1 3; StProgress 2 3; StProgress 3 3].
Proof.
  exact (progress_once_per_bundle (E := scripted documents)
           "key" 3 0 three_bundles (start second_malformed)
           (after_loop second_malformed) eq_refl).
Defined.

Lemma loop_only_appends_witness :
  exists (added : list pyval) (events : list ui_event),
    all_qa_pairs (snd (convert_posts (E := scripted documents) "key" 3 1
                                     ["bundle B"; "bundle C"]
                                     (after_first second_unavailable)))
    = map qa_record thread_a ++ added /\
    ui (snd (convert_posts (E := scripted documents) "key" 3 1
                           ["bundle B"; "bundle C"]
                           (after_first second_unavailable)))
    = ui (after_first second_unavailable) ++ events.
Proof.
  exact (loop_only_appends (E := scripted documents)
           "key" 3 1 ["bundle B"; "bundle C"] (after_first second_unavailable)
           (snd (convert_posts (E := scripted documents) "key" 3 1
                               ["bundle B"; "bundle C"]
                               (after_first second_unavailable)))
           (Raise unavailable) eq_refl).
Defined.

(** ** The aggregator on any input *)

Section AggregatorAny.
Context {E : Externals}.

Lemma flatten_app (a b : list pyval) :
  flatten (a ++ b)
  = match flatten a with
    | Ok items => match flatten b with
                  | Ok more => Ok (items ++ more)
                  | Raise e => Raise e
                  end
    | Raise e => Raise e
    end.
Proof.
  induction a as [|v a IH]; simpl.
  - now destruct (flatten b).
  - destruct (iter v) as [items|e]; [|reflexivity].
    rewrite IH. destruct (flatten a) as [more|e]; [|reflexivity].
    destruct (flatten b) as [more'|e]; [|reflexivity].
    now rewrite app_assoc.
Qed.

Lemma flatten_of_lists (per_thread : list (list pyval)) :
  flatten (map PList per_thread) = Ok (List.concat per_thread).
Proof.
  induction per_thread as [|items rest IH]; simpl; [reflexivity|].
  now rewrite IH.
Qed.

(** X8.  Given any number of per-thread lists of records, the
    aggregator flattens them into their concatenation, thread after
    thread and in the order within each thread, and then does what the
    aggregator of the specification does on that flat list. *)
Theorem flatten_concatenates (per_thread : list (list pyval)) (filename : string)
        (s : state) :
  flatten (map PList per_thread) = Ok (List.concat per_thread) /\
  save_to_excel (map PList per_thread) filename s
  = aggregate_flat (List.concat per_thread) filename s.
Proof.
  split; [apply flatten_of_lists|].
  unfold save_to_excel, aggregate_flat. unfold bind at 1, lift at 1.
  now rewrite flatten_of_lists.
Qed.

(** X9.  Where one element of the aggregator's input cannot be iterated
    (a number, a boolean, [None]) and the elements before it are lists,
    the flattening raises the [TypeError] of that element, whatever comes
    after it; the aggregator raises it too, builds no table, writes
    nothing and shows nothing. *)
Theorem flatten_rejects_scalar (per_thread : list (list pyval)) (v : pyval)
        (rest : list pyval) (e : exception) (filename : string) (s : state) :
  iter v = Raise e ->
  flatten (map PList per_thread ++ v :: rest) = Raise e /\
  save_to_excel (map PList per_thread ++ v :: rest) filename s = (Raise e, s).
Proof.
  intros Hit.
  assert (Hflat : flatten (map PList per_thread ++ v :: rest) = Raise e).
  { rewrite flatten_app, flatten_of_lists. simpl. now rewrite Hit. }
  split; [exact Hflat|].
  unfold save_to_excel, bind, lift. now rewrite Hflat.
Qed.

(** What the aggregator has done when it returns a table. *)
Lemma save_to_excel_returns (qa_data : list pyval) (filename : string)
      (s s' : state) (df : Frame) :
  save_to_excel qa_data filename s = (Ok df, s') ->
  exists (flat_data : list pyval) (w : world),
    flatten qa_data = Ok flat_data /\
    DataFrame DataFrame_other flat_data = Ok df /\
    to_excel df filename (outside s) = (Ok tt, w) /\
    s' = shown (StSuccess ("Data saved to " +++ filename)) (moved w s).
Proof.
  unfold save_to_excel, bind, lift, call.
  destruct (flatten qa_data) as [flat_data|e] eqn:Hflat; [|discriminate].
  destruct (DataFrame DataFrame_other flat_data) as [df'|e] eqn:Hdf; [|discriminate].
  destruct (to_excel df' filename (outside s)) as [[[]|e] w] eqn:Hwrite;
    [|discriminate].
  unfold emit, ret. simpl. intros [= <- <-].
  exists flat_data, w. now repeat split.
Qed.

(** X10.  The aggregator shows its success message only after the file
    is written.  If it returns a table, that table was built from the
    flattened input and written under the given name, and the one
    message was shown after the write; if it raises, at the flattening,
    at the table or at the write, it has shown nothing.  In no case
    does it change the collection. *)
Theorem save_to_excel_outcome (qa_data : list pyval) (filename : string)
        (s s' : state) (r : Res Frame) :
  save_to_excel qa_data filename s = (r, s') ->
  all_qa_pairs s' = all_qa_pairs s /\
  match r with
  | Ok df =>
      exists (flat_data : list pyval) (w : world),
        flatten qa_data = Ok flat_data /\
        DataFrame DataFrame_other flat_data = Ok df /\
        to_excel df filename (outside s) = (Ok tt, w) /\
        s' = shown (StSuccess ("Data saved to " +++ filename)) (moved w s)
  | Raise _ => ui s' = ui s
  end.
Proof.
  unfold save_to_excel, bind, lift, call.
  destruct (flatten qa_data) as [flat_data|e] eqn:Hflat.
  - destruct (DataFrame DataFrame_other flat_data) as [df|e] eqn:Hdf.
    + destruct (to_excel df filename (outside s)) as [[[]|e] w] eqn:Hwrite.
      * unfold emit, ret. simpl. intros [= <- <-]. split; [reflexivity|].
        exists flat_data, w. now repeat split.
      * intros [= <- <-]. now split.
    + intros [= <- <-]. now split.
  - intros [= <- <-]. now split.
Qed.

(** X11.  The last step of the driver, when it ends: with an empty
    collection it shows that no pairs were generated and calls nothing;
    otherwise the table written to the file is the table of the
    collection, and the table shown and the CSV stream offered for
    download are that same table and its rendering. *)
Theorem finish_outcome (s s' : state) :
  finish s = (Ok tt, s') ->
  (all_qa_pairs s = [] /\
   s' = shown (StError "No Q&A pairs were generated.") s) \/
  (exists (df : Frame) (w : world),
     all_qa_pairs s <> [] /\
     DataFrame DataFrame_other (all_qa_pairs s) = Ok df /\
     to_excel df reddit_qa_xlsx (outside s) = (Ok tt, w) /\
     outside s' = w /\
     ui s' = ui s ++ [StSuccess ("Data saved to " +++ reddit_qa_xlsx);
                      StDataframe df;
                      StDownloadButton "Download data as CSV" (to_csv df)
                                       "reddit_qa.csv" "text/csv"]).
Proof.
  unfold finish, bind at 1, get_all_qa_pairs.
  destruct (all_qa_pairs s) as [|record more] eqn:Hacc.
  - unfold emit. intros [= <-]. now left.
  - unfold bind at 1.
    destruct (save_to_excel [PList (record :: more)] reddit_qa_xlsx s)
      as [[df|e] s1] eqn:Hsave; [|discriminate].
    apply save_to_excel_returns in Hsave as [flat [w [Hflat [Hdf [Hwrite ->]]]]].
    rewrite flatten_wrapper in Hflat. injection Hflat as <-.
    unfold bind, emit. simpl. intros [= <-]. right.
    exists df, w. repeat split; try assumption; [discriminate|].
    simpl. now rewrite <- !app_assoc.
Qed.

End AggregatorAny.

Lemma flatten_rejects_scalar_witness :
  flatten ([PList (map qa_record thread_a)] ++ PInt 5 :: [PList []])
  = Raise (TypeError "'int' object is not iterable").
Proof.
  exact (proj1 (flatten_rejects_scalar (E := scripted documents)
                  [map qa_record thread_a] (PInt 5) [PList []]
                  (TypeError "'int' object is not iterable")
                  reddit_qa_xlsx (start second_malformed) eq_refl)).
Defined.

Lemma save_to_excel_outcome_witness :
  ui (snd (save_to_excel (E := scripted documents)
             [PList (map qa_record thread_a)] reddit_qa_xlsx
             (start write_refused)))
  = [].
Proof.
  exact (proj2 (save_to_excel_outcome (E := scripted documents)
                  [PList (map qa_record thread_a)] reddit_qa_xlsx
                  (start write_refused)
                  (snd (save_to_excel (E := scripted documents)
                          [PList (map qa_record thread_a)] reddit_qa_xlsx
                          (start write_refused)))
                  (Raise permission_denied) eq_refl)).
Defined.

Lemma finish_outcome_witness :
  (all_qa_pairs (after_loop second_malformed) = [] /\
   snd (finish (after_loop second_malformed))
   = shown (StError "No Q&A pairs were generated.") (after_loop second_malformed)) \/
  (exists (df : Frame) (w : Script),
     all_qa_pairs (after_loop second_malformed) <> [] /\
     DataFrame (DataFrame_other (Externals := scripted documents))
               (all_qa_pairs (after_loop second_malformed)) = Ok df /\
     to_excel (Externals := scripted documents) df reddit_qa_xlsx
              (outside (after_loop second_malformed)) = (Ok tt, w) /\
     outside (snd (finish (after_loop second_malformed))) = w /\
     ui (snd (finish (after_loop second_malformed)))
     = ui (after_loop second_malformed)
         ++ [StSuccess ("Data saved to " +++ reddit_qa_xlsx);
             StDataframe df;
             StDownloadButton "Download data as CSV"
                              (to_csv (Externals := scripted documents) df)
                              "reddit_qa.csv" "text/csv"]).
Proof.
  exact (finish_outcome (E := scripted documents)
           (after_loop second_malformed)
           (snd (finish (after_loop second_malformed))) eq_refl).
Defined.

(** ** The page as a whole *)

Section Main.
Context {E : Externals}.

(** [main] after a fetch that returned bundles: the loop, then the last
    step. *)
Lemma main_after_fetch (inp : Inputs) (bundle : string) (bundles : list string)
      (s sf : state) :
  start_scraping inp = true ->
  forallb nonempty (required_fields inp) = true ->
  fetch_of inp s = (Ok (Some (bundle :: bundles)), sf) ->
  main inp s
  = bind (convert_posts (gemini_api_key inp) (List.length (bundle :: bundles)) 0
                        (bundle :: bundles))
         (fun _ => finish)
         (ready inp (List.length (bundle :: bundles)) sf).
Proof.
  intros Hstart Hfields Hfetch. unfold main. rewrite Hstart.
  unfold required_fields in Hfields. rewrite Hfields. cbn [negb].
  unfold bind at 1, emit at 1. cbv beta iota. unfold bind at 1.
  unfold fetch_of in Hfetch. rewrite Hfetch.
  reflexivity.
Qed.

(** [main] after a fetch that returned nothing. *)
Lemma main_after_empty_fetch (inp : Inputs) (r : option (list string)) (s sf : state) :
  start_scraping inp = true ->
  forallb nonempty (required_fields inp) = true ->
  fetch_of inp s = (Ok r, sf) ->
  r = None \/ r = Some [] ->
  main inp s = (Ok tt, shown (StError ("No posts found in r/" +++ subreddit inp)) sf).
Proof.
  intros Hstart Hfields Hfetch Hr. unfold main. rewrite Hstart.
  unfold required_fields in Hfields. rewrite Hfields. cbn [negb].
  unfold bind at 1, emit at 1. cbv beta iota. unfold bind at 1.
  unfold fetch_of in Hfetch. rewrite Hfetch.
  destruct Hr as [-> | ->]; reflexivity.
Qed.

(** A fault of the fetch stage makes the fetcher return [None]. *)
Lemma fetch_fault_None (id secret agent name : string) (limit : Z)
      (s s' : state) (e : exception) :
  fetch_fault id secret agent name limit s e s' ->
  get_trending_posts_with_comments id secret agent name limit s
  = (Ok None, shown (StError (except_message e)) s').
Proof.
  intros Hfault.
  unfold get_trending_posts_with_comments, try_except, bind, call.
  destruct Hfault as [e w Hlist | e w w1 s1 before after post bundles Hlist Hpre Hpost].
  - rewrite Hlist. reflexivity.
  - rewrite Hlist, fetch_posts_app, Hpre. simpl.
    unfold bind, call. rewrite Hpost. reflexivity.
Qed.

(** X13.  Without the button nothing happens; with the button and one
    of the five required fields empty, the page shows the one error
    about the fields and the run ends: the platform and the model are
    not called. *)
Theorem main_requires_button_and_fields (inp : Inputs) (s : state) :
  (start_scraping inp = false -> main inp s = (Ok tt, s)) /\
  (start_scraping inp = true -> In "" (required_fields inp) ->
   main inp s
   = (Ok tt, shown (StError "Please fill in all the required fields in the sidebar.") s)).
Proof.
  split.
  - intros H. unfold main. now rewrite H.
  - intros H Hin. unfold main. rewrite H.
    assert (Hf : forallb nonempty (required_fields inp) = false).
    { apply Bool.not_true_iff_false. intros Hall.
      rewrite forallb_forall in Hall. specialize (Hall "" Hin). discriminate. }
    unfold required_fields in Hf. rewrite Hf. reflexivity.
Qed.

(** X14.  A run that fetches no thread calls neither the model nor the
    aggregator and ends normally.  After a fault of the fetch stage the
    page shows the error of the fault and then that no posts were
    found; after an empty listing it shows only the latter. *)
Theorem main_without_posts (inp : Inputs) (s : state) :
  start_scraping inp = true ->
  forallb nonempty (required_fields inp) = true ->
  (forall e s1,
     fetch_fault (reddit_client_id inp) (reddit_client_secret inp)
                 (reddit_user_agent inp) (subreddit inp) (num_posts inp)
                 (shown (StSpinner "Scraping posts...") s) e s1 ->
     main inp s
     = (Ok tt, shown (StError ("No posts found in r/" +++ subreddit inp))
                     (shown (StError (except_message e)) s1))) /\
  (forall w,
     subreddit_top (reddit_client_id inp) (reddit_client_secret inp)
                   (reddit_user_agent inp) (subreddit inp) (num_posts inp)
                   (outside s) = (Ok [], w) ->
     main inp s
     = (Ok tt, shown (StError ("No posts found in r/" +++ subreddit inp))
                     (moved w (shown (StSpinner "Scraping posts...") s)))).
Proof.
  intros Hstart Hfields. split.
  - intros e s1 Hfault.
    apply (main_after_empty_fetch inp None); try assumption; [|now left].
    unfold fetch_of. now apply fetch_fault_None.
  - intros w Hlist.
    apply (main_after_empty_fetch inp (Some [])); try assumption; [|now right].
    unfold fetch_of, get_trending_posts_with_comments, try_except, bind, call.
    simpl. rewrite Hlist. reflexivity.
Qed.

End Main.

Section MainRuns.
Context {E : Externals}.

(** X15.  Where threads are fetched and no reply of the model yields a
    record (each is malformed or an empty list), the run ends normally
    with the message that no pairs were generated; the aggregator is
    not called, so the world is left as the last call to the model
    left it and no file is written. *)
Theorem main_without_records (inp : Inputs) (bundle : string) (bundles : list string)
        (per_thread : list (list pyval)) (s sf : state) (w' : world) :
  start_scraping inp = true ->
  forallb nonempty (required_fields inp) = true ->
  fetch_of inp s = (Ok (Some (bundle :: bundles)), sf) ->
  transformed (gemini_api_key inp) (bundle :: bundles) (outside sf) per_thread w' ->
  List.concat per_thread = [] ->
  exists s' : state,
    main inp s = (Ok tt, shown (StError "No Q&A pairs were generated.") s') /\
    outside s' = w' /\
    all_qa_pairs s' = [].
Proof.
  intros Hstart Hfields Hfetch Hrun Hnone.
  rewrite (main_after_fetch inp bundle bundles s sf Hstart Hfields Hfetch).
  destruct (convert_posts_collects (gemini_api_key inp)
              (List.length (bundle :: bundles)) (bundle :: bundles) per_thread
              _ w' Hrun 0%nat (ready inp (List.length (bundle :: bundles)) sf) eq_refl)
    as [s' [Hloop [Hw Hacc]]].
  simpl in Hacc. rewrite Hnone in Hacc.
  exists s'. split; [|split; assumption].
  unfold bind at 1. rewrite Hloop.
  unfold finish, bind, get_all_qa_pairs. rewrite Hacc. reflexivity.
Qed.

(** X16.  A run in which threads are fetched, every reply decodes to a
    list (or is malformed) and the records collected carry QA records:
    once the file is written, the run ends normally, and the last
    things on the page are the success message, the table of these
    records and the download button with the CSV rendering of that same
    table. *)
Theorem main_full_run (inp : Inputs) (bundle : string) (bundles : list string)
        (per_thread : list (list pyval)) (records : list QARecord)
        (s sf : state) (w' : world) :
  start_scraping inp = true ->
  forallb nonempty (required_fields inp) = true ->
  fetch_of inp s = (Ok (Some (bundle :: bundles)), sf) ->
  transformed (gemini_api_key inp) (bundle :: bundles) (outside sf) per_thread w' ->
  Forall2 carries (List.concat per_thread) records ->
  records <> [] ->
  exists labels : list string,
    Permutation labels ["question"; "answer"] /\
    forall w'',
      to_excel (qa_table labels records) reddit_qa_xlsx w' = (Ok tt, w'') ->
      exists s' : state,
        all_qa_pairs s' = List.concat per_thread /\
        main inp s
        = (Ok tt,
           shown (StDownloadButton "Download data as CSV"
                                   (to_csv (qa_table labels records))
                                   "reddit_qa.csv" "text/csv")
             (shown (StDataframe (qa_table labels records))
                (shown (StSuccess ("Data saved to " +++ reddit_qa_xlsx))
                   (moved w'' s')))).
Proof.
  intros Hstart Hfields Hfetch Hrun Hcarry Hne.
  destruct (DataFrame_of_records DataFrame_other _ records Hcarry Hne)
    as [labels [Hperm Hdf]].
  exists labels. split; [exact Hperm|]. intros w'' Hwrite.
  destruct (convert_posts_collects (gemini_api_key inp)
              (List.length (bundle :: bundles)) (bundle :: bundles) per_thread
              _ w' Hrun 0%nat (ready inp (List.length (bundle :: bundles)) sf) eq_refl)
    as [s' [Hloop [Hw Hacc]]].
  simpl in Hacc. exists s'. split; [exact Hacc|].
  rewrite (main_after_fetch inp bundle bundles s sf Hstart Hfields Hfetch).
  unfold bind at 1. rewrite Hloop.
  unfold finish, bind at 1, get_all_qa_pairs. rewrite Hacc.
  destruct (List.concat per_thread) as [|record more] eqn:Hflat.
  - inversion Hcarry. congruence.
  - unfold bind at 1. rewrite save_to_excel_wrapper.
    unfold aggregate_flat, bind, lift, call, emit, ret.
    rewrite Hdf, Hw, Hwrite. reflexivity.
Qed.

(** X17.  Where the call to the model raises on a bundle, after the
    bundles before it were processed, [main] itself raises that
    exception: the later bundles are not sent to the model, the
    aggregator is not called and nothing more is shown. *)
Theorem main_raises_model_fault (inp : Inputs) (before after : list string)
        (bundle : string) (e : exception) (s sf s1 : state) (w : world) :
  start_scraping inp = true ->
  forallb nonempty (required_fields inp) = true ->
  fetch_of inp s = (Ok (Some (before ++ bundle :: after)), sf) ->
  let n := List.length (before ++ bundle :: after) in
  convert_posts (gemini_api_key inp) n 0 before (ready inp n sf) = (Ok tt, s1) ->
  generate_content (gemini_api_key inp) (raw_data_prompt bundle) (outside s1)
  = (Raise e, w) ->
  main inp s
  = (Raise e, moved w (shown (StSpinner (converting_message (List.length before) n)) s1)).
Proof.
  intros Hstart Hfields Hfetch n Hbefore Hgen.
  assert (Hmain : main inp s
                  = bind (convert_posts (gemini_api_key inp) n 0
                                        (before ++ bundle :: after))
                         (fun _ => finish) (ready inp n sf)).
  { unfold n. destruct (before ++ bundle :: after) as [|b bs] eqn:Hall.
    - destruct before; discriminate.
    - now apply main_after_fetch. }
  rewrite Hmain. unfold bind at 1.
  rewrite convert_posts_app, Hbefore. simpl.
  unfold bind at 1. unfold convert_post, bind at 1. simpl.
  unfold bind at 1.
  rewrite (convert_to_qa_fault (gemini_api_key inp) bundle e _ w) by exact Hgen.
  reflexivity.
Qed.

End MainRuns.

(** ** Ground runs of the page *)

Lemma main_requires_button_and_fields_witness :
  main missing_agent (start second_malformed)
  = (Ok tt, shown (StError "Please fill in all the required fields in the sidebar.")
                  (start second_malformed)).
Proof.
  apply (proj2 (main_requires_button_and_fields (E := scripted documents)
                  missing_agent (start second_malformed))).
  - reflexivity.
  - right. right. left. reflexivity.
Defined.

Lemma main_without_posts_witness :
  main the_inputs (start nothing_listed)
  = (Ok tt, shown (StError "No posts found in r/python")
                  (shown (StSpinner "Scraping posts...") (start nothing_listed)))
  /\
  exists s1 : @state (scripted documents),
    main the_inputs (start second_thread_fails)
    = (Ok tt, shown (StError "No posts found in r/python")
                    (shown (StError (except_message refused)) s1)).
Proof.
  split.
  - exact (proj2 (main_without_posts (E := scripted documents)
                    the_inputs (start nothing_listed) eq_refl eq_refl)
                 nothing_listed eq_refl).
  - eexists.
    apply (proj1 (main_without_posts (E := scripted documents)
                    the_inputs (start second_thread_fails) eq_refl eq_refl)
                 refused).
    apply (fault_in_comments (E := scripted documents)
             "id" "secret" "agent" "python" 10
             (shown (StSpinner "Scraping posts...") (start second_thread_fails))
             refused second_thread_fails
             {| listing := Ok [thread "A"; thread "B"]; threads := [];
                replies := []; disk_writable := true; files := [] |}
             (shown (StSpinner "Scraping posts...")
                (start {| listing := Ok [thread "A"; thread "B"];
                          threads := [Raise refused];
                          replies := []; disk_writable := true; files := [] |}))
             [thread "A"] [] (thread "B")
             [format_post (thread "A") [ {| score := 1; body := "c" |} ]]);
      reflexivity.
Defined.

Lemma transformed_nothing_usable :
  transformed (E := scripted documents) "key" three_empty_bundles
              (outside (fetched nothing_usable)) [[]; []; []]
              (after_replies 3 (outside (fetched nothing_usable))).
Proof.
  eapply transformed_malformed; [reflexivity | reflexivity |].
  eapply (transformed_list (E := scripted documents) "key" _ _ _ _ _ "[]" []);
    [reflexivity | reflexivity |].
  eapply transformed_malformed; [reflexivity | reflexivity |].
  apply transformed_none.
Defined.

Lemma main_without_records_witness :
  exists s' : @state (scripted documents),
    main the_inputs (start nothing_usable)
    = (Ok tt, shown (StError "No Q&A pairs were generated.") s') /\
    files (outside s') = [].
Proof.
  destruct (main_without_records (E := scripted documents)
              the_inputs (empty_bundle "A") [empty_bundle "B"; empty_bundle "C"]
              [[]; []; []] (start nothing_usable) (fetched nothing_usable)
              (after_replies 3 (outside (fetched nothing_usable)))
              eq_refl eq_refl eq_refl transformed_nothing_usable eq_refl)
    as [s' [Hmain [Hw _]]].
  exists s'. split; [exact Hmain|]. rewrite Hw. reflexivity.
Defined.

Lemma transformed_fetched_second_malformed :
  transformed (E := scripted documents) "key" three_empty_bundles
              (outside (fetched second_malformed))
              [map qa_record thread_a; []; map qa_record thread_c]
              (after_replies 3 (outside (fetched second_malformed))).
Proof.
  eapply transformed_list; [reflexivity | reflexivity |].
  eapply transformed_malformed; [reflexivity | reflexivity |].
  eapply transformed_list; [reflexivity | reflexivity |].
  apply transformed_none.
Defined.

Lemma main_full_run_witness :
  exists (labels : list string) (s' : @state (scripted documents)),
    Permutation labels ["question"; "answer"] /\
    all_qa_pairs s' = map qa_record (thread_a ++ thread_c) /\
    main the_inputs (start second_malformed)
    = (Ok tt,
       shown (StDownloadButton "Download data as CSV"
                (plain_csv (qa_table labels (map qa_typed (thread_a ++ thread_c))))
                "reddit_qa.csv" "text/csv")
         (shown (StDataframe (qa_table labels (map qa_typed (thread_a ++ thread_c))))
            (shown (StSuccess "Data saved to reddit_qa.xlsx")
               (moved (E := scripted documents)
                  (snd (scripted_write
                          (qa_table labels (map qa_typed (thread_a ++ thread_c)))
                          reddit_qa_xlsx
                          (after_replies 3 (outside (fetched second_malformed)))))
                  s')))).
Proof.
  destruct (main_full_run (E := scripted documents)
              the_inputs (empty_bundle "A") [empty_bundle "B"; empty_bundle "C"]
              [map qa_record thread_a; []; map qa_record thread_c]
              (map qa_typed (thread_a ++ thread_c))
              (start second_malformed) (fetched second_malformed)
              (after_replies 3 (outside (fetched second_malformed)))
              eq_refl eq_refl eq_refl transformed_fetched_second_malformed)
    as [labels [Hperm Hrun]].
  - repeat (constructor; [left; reflexivity|]). constructor.
  - discriminate.
  - destruct (Hrun _ eq_refl) as [s' [Hacc Hmain]].
    exists labels, s'. split; [exact Hperm|]. split; [exact Hacc | exact Hmain].
Defined.

Lemma main_raises_model_fault_witness :
  exists final : @state (scripted documents),
    main the_inputs (start second_unavailable) = (Raise unavailable, final) /\
    all_qa_pairs final = map qa_record thread_a.
Proof.
  eexists. split.
  - exact (main_raises_model_fault (E := scripted documents)
             the_inputs [empty_bundle "A"] [empty_bundle "C"] (empty_bundle "B")
             unavailable (start second_unavailable) (fetched second_unavailable)
             (snd (convert_posts (E := scripted documents) "key" 3 0
                                 [empty_bundle "A"]
                                 (ready the_inputs 3 (fetched second_unavailable))))
             (after_replies 2 (outside (fetched second_unavailable)))
             eq_refl eq_refl eq_refl eq_refl eq_refl).
  - reflexivity.
Defined.
